(** * xadmin form widgets and context helper: a shallow embedding

    The development follows [xadmin/plugins/utils.py] and
    [xadmin/widgets.py].  Python dictionaries are finite maps with string
    keys, Python values are a small tagged union, and the attribute
    dictionaries that the radio inputs mutate in place live in an explicit
    store.

    The module is written against Django 1.x (it imports [six] and
    [python_2_unicode_compatible]).  The text helpers it calls
    ([force_text], [escape], [conditional_escape], [format_html],
    [format_html_join], [mark_safe]) are embedded as that version defines
    them; the methods of the form classes it inherits from are the fields
    of the class [Framework], so every statement about a widget holds for
    whatever the base classes render.  Django 1.9's own definitions of
    these methods are embedded as well, as the instance
    [sample_framework], on which concrete outputs are evaluated. *)

From Stdlib Require Import Ascii ZArith.
From stdpp Require Import gmap strings list fin_maps sorting pretty.

Open Scope Z_scope.

(** ** Python values *)

(** The values that occur as attribute values, choice values, labels and
    names.  [PSafe] is Django's [SafeText]: a [str] carrying [__html__]. *)
Inductive pyval :=
| PNone
| PBool (b : bool)
| PInt (z : Z)
| PStr (s : string)
| PSafe (s : string).

Global Instance pyval_eq_dec : EqDecision pyval.
Proof. solve_decision. Defined.

Abbreviation dict := (gmap string pyval).

(** The double quote and the line feed, by character code. *)
Definition dq : string := String (ascii_of_nat 34) EmptyString.
Definition nl : string := String (ascii_of_nat 10) EmptyString.

(** [str(v)]. *)
Definition py_str (v : pyval) : string :=
  match v with
  | PNone => "None"
  | PBool true => "True"
  | PBool false => "False"
  | PInt z => pretty z
  | PStr s => s
  | PSafe s => s
  end.

(** [bool(v)]. *)
Definition truthy (v : pyval) : bool :=
  match v with
  | PNone => false
  | PBool b => b
  | PInt z => negb (z =? 0)
  | PStr s => negb (String.eqb s EmptyString)
  | PSafe s => negb (String.eqb s EmptyString)
  end.

(** [sep.join(l)]. *)
Fixpoint join (sep : string) (l : list string) : string :=
  match l with
  | [] => EmptyString
  | [x] => x
  | x :: l' => x +:+ sep +:+ join sep l'
  end.

(** [s.replace(old, new)] for a non-empty [old]: occurrences are replaced
    from left to right and do not overlap; [skip] counts the characters of
    the occurrence just replaced that are still to be dropped. *)
Fixpoint replace_from (old new : string) (skip : nat) (s : string) : string :=
  match s with
  | EmptyString => EmptyString
  | String c s' =>
      match skip with
      | S k => replace_from old new k s'
      | O =>
          if String.prefix old s
          then new +:+ replace_from old new (String.length old - 1) s'
          else String c (replace_from old new O s')
      end
  end.

Definition replace (old new s : string) : string := replace_from old new O s.

(** ** Django's text helpers (django.utils.encoding, django.utils.html) *)

(** [force_text(v)]: a [str] (also a [SafeText]) is returned as it is,
    anything else is converted with [str]. *)
Definition force_text (v : pyval) : pyval :=
  match v with
  | PStr s => PStr s
  | PSafe s => PSafe s
  | _ => PStr (py_str v)
  end.

Definition force_unicode := force_text.

Definition mark_safe (s : string) : pyval := PSafe s.

(** [escape(text)]: the five replacements, the ampersand first. *)
Definition escape (text : string) : string :=
  replace "'" "&#39;"
    (replace dq "&quot;"
       (replace ">" "&gt;"
          (replace "<" "&lt;"
             (replace "&" "&amp;" text)))).

(** [conditional_escape(v)]: a value with [__html__] is left alone. *)
Definition conditional_escape (v : pyval) : pyval :=
  match v with
  | PSafe s => PSafe s
  | _ => mark_safe (escape (py_str (force_text v)))
  end.

(** Field [n] of a format string, filled from the argument list. *)
Definition field (n : nat) (args : list string) : string :=
  default EmptyString (args !! n).

(** A format string is embedded as the function that fills its fields.
    [format_html(fmt, *args)] escapes every argument first. *)
Definition format_html (fmt : list string → string) (args : list pyval) : pyval :=
  mark_safe (fmt (py_str ∘ conditional_escape <$> args)).

Definition format_html_join (sep : string) (fmt : list string → string)
    (args_generator : list (list pyval)) : pyval :=
  mark_safe (join (py_str (conditional_escape (PStr sep)))
               ((λ args, py_str (format_html fmt args)) <$> args_generator)).

(** ** xadmin/widgets.py: flatatt *)

(** The format string of [flatatt]: a space, field 0, an equals sign and
    field 1 between double quotes. *)
Definition attr_format (args : list string) : string :=
  " " +:+ field 0 args +:+ "=" +:+ dq +:+ field 1 args +:+ dq.

(** The order of [sorted] on the items of a dictionary: keys are distinct,
    so tuples compare by their keys. *)
Definition item_le (x y : string * pyval) : Prop := String.le x.1 y.1.

Global Instance item_le_dec : RelDecision item_le.
Proof. intros x y. unfold item_le. apply _. Defined.

Global Instance item_le_trans : Transitive item_le.
Proof. intros x y z. unfold item_le. apply transitivity. Qed.

Global Instance item_le_total : Total item_le.
Proof. intros x y. unfold item_le. apply total, _. Qed.

Definition sorted_items (attrs : dict) : list (string * pyval) :=
  merge_sort item_le (map_to_list attrs).

Definition flatatt (attrs : dict) : pyval :=
  format_html_join EmptyString attr_format
    ((λ kv : string * pyval, [PStr kv.1; kv.2]) <$> sorted_items attrs).

(** ** The store of mutable dictionaries *)

(** Attribute dictionaries are objects: a [ChoiceInput] holds a reference
    to its [attrs] and writes through it.  A computation threads the store
    and either returns a value or raises; the store survives a raise. *)
Abbreviation loc := positive.
Abbreviation heap := (gmap positive (gmap string pyval)).

Definition M (A : Type) : Type := heap → option A * heap.

Definition ret {A} (a : A) : M A := λ h, (Some a, h).

Definition raise {A} : M A := λ h, (None, h).

Definition bind {A B} (m : M A) (k : A → M B) : M B :=
  λ h, match m h with
       | (Some a, h') => k a h'
       | (None, h') => (None, h')
       end.

Notation "'do' x <- m ; k" := (bind m (λ x, k))
  (at level 20, x name, m at level 100, k at level 200, only parsing).
Notation "'run' m ; k" := (bind m (λ _, k))
  (at level 20, m at level 100, k at level 200, only parsing).

Definition lift {A} (o : option A) : M A := λ h, (o, h).

Definition load (l : loc) : M dict := λ h, (h !! l, h).

Definition store (l : loc) (d : dict) : M unit := λ h, (Some (), <[l := d]> h).

Definition alloc (d : dict) : M loc :=
  λ h, let l := fresh (dom h) in (Some l, <[l := d]> h).

(** [d.copy()]. *)
Definition dict_copy (l : loc) : M loc := do d <- load l; alloc d.

(** [a or b] on dictionary references, [a] possibly [None]: an empty
    dictionary is falsy. *)
Definition or_attrs (a : option loc) (b : loc) : M loc :=
  match a with
  | None => ret b
  | Some l => do d <- load l; ret (if decide (d = ∅) then b else l)
  end.

(** ** Python operators used by the widgets *)

Definition as_text (v : pyval) : option string :=
  match v with
  | PStr s | PSafe s => Some s
  | _ => None
  end.

Definition as_num (v : pyval) : option Z :=
  match v with
  | PBool b => Some (if b then 1 else 0)
  | PInt z => Some z
  | _ => None
  end.

(** [a == b]. *)
Definition py_eq (a b : pyval) : bool :=
  match as_text a, as_text b with
  | Some s, Some t => bool_decide (s = t)
  | None, None =>
      match as_num a, as_num b with
      | Some x, Some y => bool_decide (x = y)
      | None, None => true
      | _, _ => false
      end
  | _, _ => false
  end.

(** [v.replace(old, new)]: only a [str] has the method, and the result is
    a plain [str]. *)
Definition str_replace (v : pyval) (old new : string) : option pyval :=
  match as_text v with
  | Some s => Some (PStr (replace old new s))
  | None => None
  end.

(** [l[idx]] with Python's negative indices; [None] is the IndexError. *)
Definition py_index {A} (l : list A) (idx : Z) : option A :=
  if decide (0 ≤ idx) then l !! Z.to_nat idx
  else if decide (- Z.of_nat (length l) ≤ idx)
       then l !! Z.to_nat (Z.of_nat (length l) + idx)
       else None.

(** [d.get(k, default)]. *)
Definition dict_get (d : dict) (k : string) (dflt : pyval) : pyval :=
  default dflt (d !! k).

(** [d.update(other)]: the entries of [other] win. *)
Definition dict_update (d other : dict) : dict := other ∪ d.

(** ** ChoiceInput and its subclasses *)

Inductive input_class := RadioChoiceInput | AdminRadioInput.

Record ChoiceInput := {
  ci_class : input_class;
  ci_name : pyval;
  ci_value : pyval;
  ci_attrs : loc;
  choice_value : pyval;
  choice_label : pyval;
  ci_index : Z
}.

(** Both concrete classes inherit [input_type = 'radio']. *)
Definition input_type (c : input_class) : pyval := PStr "radio".

(** [ChoiceInput.__init__] followed by [RadioChoiceInput.__init__], which
    replaces [value] by its text. *)
Definition RadioChoiceInput_init (c : input_class) (name value : pyval)
    (attrs : loc) (choice : pyval * pyval) (index : Z) : ChoiceInput :=
  {| ci_class := c;
     ci_name := name;
     ci_value := force_text value;
     ci_attrs := attrs;
     choice_value := force_text choice.1;
     choice_label := force_text choice.2;
     ci_index := index |}.

Definition is_checked (self : ChoiceInput) : bool :=
  py_eq (ci_value self) (choice_value self).

Definition input_format (args : list string) : string :=
  "<input" +:+ field 0 args +:+ " />".

Definition for_format (args : list string) : string :=
  " for=" +:+ dq +:+ field 0 args +:+ "_" +:+ field 1 args +:+ dq.

Definition label_format (args : list string) : string :=
  "<label" +:+ field 0 args +:+ ">" +:+ field 1 args +:+ " "
    +:+ field 2 args +:+ "</label>".

(** The id with the index appended. *)
Definition indexed_id (idv : pyval) (index : Z) : string :=
  py_str idv +:+ "_" +:+ pretty index.

Definition tag (self : ChoiceInput) : M pyval :=
  do a <- load (ci_attrs self);
  run match a !! "id" with
      | Some idv =>
          store (ci_attrs self) (<["id" := PStr (indexed_id idv (ci_index self))]> a)
      | None => ret ()
      end;
  do a <- load (ci_attrs self);
  let final_attrs :=
    <["value" := choice_value self]>
      (<["name" := ci_name self]>
         (<["type" := input_type (ci_class self)]> a)) in
  let final_attrs :=
    if is_checked self then <["checked" := PStr "checked"]> final_attrs
    else final_attrs in
  ret (format_html input_format [flatatt final_attrs]).

(** [ChoiceInput.render]; the locals [name] and [value] are not used after
    their assignment. *)
Definition ChoiceInput_render (self : ChoiceInput) (attrs : option loc) : M pyval :=
  do attrs <- or_attrs attrs (ci_attrs self);
  do a <- load (ci_attrs self);
  let label_for :=
    match a !! "id" with
    | Some idv => format_html for_format [idv; PInt (ci_index self)]
    | None => PStr EmptyString
    end in
  do t <- tag self;
  ret (format_html label_format [label_for; t; choice_label self]).

Definition radio_inline (label_for tag choice_label : string) : string :=
  "<label" +:+ label_for +:+ " class=" +:+ dq +:+ "radio-inline" +:+ dq +:+ ">"
    +:+ tag +:+ " " +:+ choice_label +:+ "</label>".

Definition radio_block (label_for tag choice_label : string) : string :=
  "<div class=" +:+ dq +:+ "radio" +:+ dq +:+ "><label" +:+ label_for +:+ ">"
    +:+ tag +:+ " " +:+ choice_label +:+ "</label></div>".

Definition AdminRadioInput_render (self : ChoiceInput) (attrs : option loc) : M pyval :=
  do attrs <- or_attrs attrs (ci_attrs self);
  do a <- load attrs;
  do cls <- lift (str_replace (dict_get a "class" (PStr EmptyString))
                    "form-control" EmptyString);
  run store attrs (<["class" := cls]> a);
  do sa <- load (ci_attrs self);
  let label_for :=
    match sa !! "id" with
    | Some idv => " for=" +:+ dq +:+ indexed_id idv (ci_index self) +:+ dq
    | None => EmptyString
    end in
  let choice_label := conditional_escape (force_unicode (choice_label self)) in
  do a <- load attrs;
  if truthy (dict_get a "inline" (PBool false))
  then do t <- tag self;
       ret (mark_safe (radio_inline label_for (py_str t) (py_str choice_label)))
  else do t <- tag self;
       ret (mark_safe (radio_block label_for (py_str t) (py_str choice_label))).

(** [str(w)]: [__str__] calls [render()] of the object's class with no
    arguments. *)
Definition ChoiceInput_str (w : ChoiceInput) : M pyval :=
  match ci_class w with
  | RadioChoiceInput => ChoiceInput_render w None
  | AdminRadioInput => AdminRadioInput_render w None
  end.

(** ** ChoiceFieldRenderer and its subclasses *)

Inductive renderer_class :=
  ChoiceFieldRenderer | RadioFieldRenderer | AdminRadioFieldRenderer.

Record Renderer := {
  r_class : renderer_class;
  r_name : pyval;
  r_value : pyval;
  r_attrs : loc;
  r_choices : list (pyval * pyval)
}.

(** The class attribute; the base class leaves it [None]. *)
Definition choice_input_class (c : renderer_class) : option input_class :=
  match c with
  | ChoiceFieldRenderer => None
  | RadioFieldRenderer => Some RadioChoiceInput
  | AdminRadioFieldRenderer => Some RadioChoiceInput
  end.

(** The construction shared by [__iter__] and [__getitem__]: the input
    receives a copy of the renderer's attrs.  [AdminRadioFieldRenderer]
    names [AdminRadioInput] itself; the others call [choice_input_class],
    and calling [None] raises after the arguments were evaluated. *)
Definition new_input (self : Renderer) (choice : pyval * pyval) (i : Z) : M ChoiceInput :=
  match r_class self with
  | AdminRadioFieldRenderer =>
      do l <- dict_copy (r_attrs self);
      ret (RadioChoiceInput_init AdminRadioInput (r_name self) (r_value self) l choice i)
  | c =>
      do l <- dict_copy (r_attrs self);
      do cic <- lift (choice_input_class c);
      ret (RadioChoiceInput_init cic (r_name self) (r_value self) l choice i)
  end.

(** [for w in self: body(w)], collecting what the body returns: the
    generator builds input [i] just before the body runs on it. *)
Fixpoint iter_from {A} (self : Renderer) (i : nat) (choices : list (pyval * pyval))
    (body : ChoiceInput → M A) : M (list A) :=
  match choices with
  | [] => ret []
  | choice :: rest =>
      do w <- new_input self choice (Z.of_nat i);
      do x <- body w;
      do xs <- iter_from self (S i) rest body;
      ret (x :: xs)
  end.

Definition Renderer_iter {A} (self : Renderer) (body : ChoiceInput → M A) : M (list A) :=
  iter_from self 0 (r_choices self) body.

Definition Renderer_getitem (self : Renderer) (idx : Z) : M ChoiceInput :=
  do choice <- lift (py_index (r_choices self) idx);
  new_input self choice idx.

Definition ul_format (args : list string) : string :=
  "<ul id=" +:+ dq +:+ field 0 args +:+ dq +:+ ">".

Definition li_format (args : list string) : string :=
  "<li>" +:+ field 0 args +:+ "</li>".

Definition ChoiceFieldRenderer_render (self : Renderer) : M pyval :=
  do a <- load (r_attrs self);
  let id_ := dict_get a "id" PNone in
  let start_tag :=
    if truthy id_ then format_html ul_format [id_] else PStr "<ul>" in
  do items <- Renderer_iter self (λ widget,
                do s <- ChoiceInput_str widget;
                ret (py_str (format_html li_format [force_text s])));
  ret (mark_safe (join nl ([py_str start_tag] ++ items ++ ["</ul>"]))).

Definition AdminRadioFieldRenderer_render (self : Renderer) : M pyval :=
  do items <- Renderer_iter self (λ w,
                do s <- ChoiceInput_str w;
                ret (py_str (force_unicode s)));
  ret (mark_safe (join nl items)).

(** [self.render()] by the renderer's class. *)
Definition Renderer_render (self : Renderer) : M pyval :=
  match r_class self with
  | AdminRadioFieldRenderer => AdminRadioFieldRenderer_render self
  | _ => ChoiceFieldRenderer_render self
  end.

(** ** The framework's side of the widgets *)

(** What a widget instance keeps: its attrs, and the slots the
    subclasses of [Widget] add (the format of a date or time input, the
    choices of a select, the input type of an input). *)
Record Widget := {
  w_attrs : dict;
  w_format : option pyval;
  w_choices : list (pyval * pyval);
  w_input_type : pyval
}.

(** [Widget.__init__] itself: a copy of the attrs it is given, or an empty
    dictionary for [None]; [format] fills the slot of that name, and the
    input type is the class attribute of [Input], which is [None]. *)
Definition Widget_init (attrs : option dict) (format : option pyval) : Widget :=
  {| w_attrs := default ∅ attrs; w_format := format; w_choices := [];
     w_input_type := PNone |}.

(** The methods of django.forms that the admin widgets call and do not
    define: the translation of a message, the rendering of the base date
    and time inputs, [Widget.build_attrs], the rendering of a
    [CheckboxInput] built from its attrs and its [check_test], and the
    constructors of the five base classes the admin widgets extend. *)
Class Framework := {
  ugettext : string → string;
  DateInput_render : Widget → pyval → pyval → option dict → pyval;
  TimeInput_render : Widget → pyval → pyval → option dict → pyval;
  build_attrs : Widget → option dict → dict;
  CheckboxInput_render : dict → (pyval → bool) → pyval → pyval → pyval;
  DateInput_init : option dict → option pyval → Widget;
  TimeInput_init : option dict → option pyval → Widget;
  SelectMultiple_init : option dict → Widget;
  Textarea_init : option dict → Widget;
  TextInput_init : option dict → Widget
}.

(** ** Constructors with default attributes *)

(** The three lines every constructor shares: start from the defaults and
    update them with the caller's attrs when these are not [None]. *)
Definition final_attrs_of (defaults : dict) (attrs : option dict) : dict :=
  match attrs with
  | Some a => dict_update defaults a
  | None => defaults
  end.

Definition AdminDateWidget_defaults : dict :=
  <["class" := PStr "date-field"]> (<["size" := PStr "10"]> ∅).

Definition AdminTimeWidget_defaults : dict :=
  <["class" := PStr "time-field"]> (<["size" := PStr "8"]> ∅).

Definition AdminSelectMultiple_defaults : dict := {["class" := PStr "select-multi"]}.
Definition AdminTextareaWidget_defaults : dict := {["class" := PStr "textarea-field"]}.
Definition AdminTextInputWidget_defaults : dict := {["class" := PStr "text-field"]}.
Definition AdminURLFieldWidget_defaults : dict := {["class" := PStr "url-field"]}.
Definition AdminIntegerFieldWidget_defaults : dict := {["class" := PStr "int-field"]}.
Definition AdminCommaSeparatedIntegerFieldWidget_defaults : dict :=
  {["class" := PStr "sep-int-field"]}.

Definition AdminDateWidget_init `{Framework} (attrs : option dict)
    (format : option pyval) : Widget :=
  DateInput_init (Some (final_attrs_of AdminDateWidget_defaults attrs)) format.

Definition AdminTimeWidget_init `{Framework} (attrs : option dict)
    (format : option pyval) : Widget :=
  TimeInput_init (Some (final_attrs_of AdminTimeWidget_defaults attrs)) format.

Definition AdminSelectMultiple_init `{Framework} (attrs : option dict) : Widget :=
  SelectMultiple_init (Some (final_attrs_of AdminSelectMultiple_defaults attrs)).

Definition AdminTextareaWidget_init `{Framework} (attrs : option dict) : Widget :=
  Textarea_init (Some (final_attrs_of AdminTextareaWidget_defaults attrs)).

Definition AdminTextInputWidget_init `{Framework} (attrs : option dict) : Widget :=
  TextInput_init (Some (final_attrs_of AdminTextInputWidget_defaults attrs)).

Definition AdminURLFieldWidget_init `{Framework} (attrs : option dict) : Widget :=
  TextInput_init (Some (final_attrs_of AdminURLFieldWidget_defaults attrs)).

Definition AdminIntegerFieldWidget_init `{Framework} (attrs : option dict) : Widget :=
  TextInput_init (Some (final_attrs_of AdminIntegerFieldWidget_defaults attrs)).

Definition AdminCommaSeparatedIntegerFieldWidget_init `{Framework} (attrs : option dict) : Widget :=
  TextInput_init (Some (final_attrs_of AdminCommaSeparatedIntegerFieldWidget_defaults attrs)).

(** The constructors by class, with the default set each one starts from. *)
Inductive admin_widget :=
| AdminDateWidget | AdminTimeWidget | AdminSelectMultiple | AdminTextareaWidget
| AdminTextInputWidget | AdminURLFieldWidget | AdminIntegerFieldWidget
| AdminCommaSeparatedIntegerFieldWidget.

Definition admin_defaults (c : admin_widget) : dict :=
  match c with
  | AdminDateWidget => AdminDateWidget_defaults
  | AdminTimeWidget => AdminTimeWidget_defaults
  | AdminSelectMultiple => AdminSelectMultiple_defaults
  | AdminTextareaWidget => AdminTextareaWidget_defaults
  | AdminTextInputWidget => AdminTextInputWidget_defaults
  | AdminURLFieldWidget => AdminURLFieldWidget_defaults
  | AdminIntegerFieldWidget => AdminIntegerFieldWidget_defaults
  | AdminCommaSeparatedIntegerFieldWidget =>
      AdminCommaSeparatedIntegerFieldWidget_defaults
  end.

Definition admin_init `{Framework} (c : admin_widget) (attrs : option dict)
    (format : option pyval) : Widget :=
  match c with
  | AdminDateWidget => AdminDateWidget_init attrs format
  | AdminTimeWidget => AdminTimeWidget_init attrs format
  | AdminSelectMultiple => AdminSelectMultiple_init attrs
  | AdminTextareaWidget => AdminTextareaWidget_init attrs
  | AdminTextInputWidget => AdminTextInputWidget_init attrs
  | AdminURLFieldWidget => AdminURLFieldWidget_init attrs
  | AdminIntegerFieldWidget => AdminIntegerFieldWidget_init attrs
  | AdminCommaSeparatedIntegerFieldWidget =>
      AdminCommaSeparatedIntegerFieldWidget_init attrs
  end.

(** ** Date, time and split date-time rendering *)

Definition quoted (s : string) : string := dq +:+ s +:+ dq.

Definition addon_span (icon : string) : string :=
  "<span class=" +:+ quoted "input-group-addon" +:+ "><i class="
    +:+ quoted icon +:+ "></i></span>".

Definition button_span (text : string) : string :=
  "<span class=" +:+ quoted "input-group-btn" +:+ "><button class="
    +:+ quoted "btn btn-default" +:+ " type=" +:+ quoted "button" +:+ ">"
    +:+ text +:+ "</button></span>".

Definition date_prefix : string :=
  "<div class=" +:+ quoted "input-group date bootstrap-datepicker" +:+ ">"
    +:+ addon_span "fa fa-calendar".

Definition time_prefix : string :=
  "<div class=" +:+ quoted "input-group time bootstrap-clockpicker" +:+ ">"
    +:+ addon_span "fa fa-clock-o".

Definition AdminDateWidget_render `{Framework} (self : Widget)
    (name value : pyval) (attrs : option dict) : pyval :=
  let input_html := DateInput_render self name value attrs in
  mark_safe (date_prefix +:+ py_str input_html
               +:+ button_span (ugettext "Today") +:+ "</div>").

Definition AdminTimeWidget_render `{Framework} (self : Widget)
    (name value : pyval) (attrs : option dict) : pyval :=
  let input_html := TimeInput_render self name value attrs in
  mark_safe (time_prefix +:+ py_str input_html
               +:+ button_span (ugettext "Now") +:+ "</div>").

(** [rendered_widgets[0]] and [rendered_widgets[1]]: a shorter list raises
    IndexError. *)
Definition format_output (rendered_widgets : list pyval) : option pyval :=
  a ← rendered_widgets !! 0%nat;
  b ← rendered_widgets !! 1%nat;
  Some (mark_safe ("<div class=" +:+ quoted "datetime clearfix" +:+ ">"
                     +:+ py_str a +:+ py_str b +:+ "</div>")).

(** ** AdminCheckboxSelect.render *)

Definition checkbox_inline (label_for rendered_cb option_label : string) : string :=
  "<label" +:+ label_for +:+ " class=" +:+ quoted "checkbox-inline" +:+ ">"
    +:+ rendered_cb +:+ " " +:+ option_label +:+ "</label>".

Definition checkbox_block (label_for rendered_cb option_label : string) : string :=
  "<div class=" +:+ quoted "checkbox" +:+ "><label" +:+ label_for +:+ ">"
    +:+ rendered_cb +:+ " " +:+ option_label +:+ "</label></div>".

(** [set([force_unicode(v) for v in value])]: a set of strings. *)
Definition str_values_of (value : list pyval) : gset string :=
  list_to_set (py_str ∘ force_unicode <$> value).

(** [lambda value: value in str_values]: only a string equals a member. *)
Definition check_test (str_values : gset string) (value : pyval) : bool :=
  match as_text value with
  | Some s => bool_decide (s ∈ str_values)
  | None => false
  end.

(** [attrs and 'id' in attrs]. *)
Definition has_id_of (attrs : option dict) : bool :=
  match attrs with
  | Some a => bool_decide (a ≠ ∅) && bool_decide (is_Some (a !! "id"))
  | None => false
  end.

(** [attrs['id']], read only when [has_id] holds. *)
Definition attrs_id (attrs : option dict) : pyval :=
  default PNone (attrs ≫= (.!! "id")).

(** The body of the loop for option [i]: the new [final_attrs] and the
    fragment appended to [output]. *)
Definition checkbox_body `{Framework} (name : pyval) (attrs : option dict)
    (str_values : gset string) (final_attrs : dict) (i : nat)
    (opt : pyval * pyval) : dict * string :=
  let has_id := has_id_of attrs in
  let final_attrs :=
    if has_id
    then <["id" := PStr (indexed_id (attrs_id attrs) (Z.of_nat i))]> final_attrs
    else final_attrs in
  let label_for :=
    if has_id
    then " for=" +:+ dq +:+ py_str (dict_get final_attrs "id" PNone) +:+ dq
    else EmptyString in
  let option_value := force_unicode opt.1 in
  let rendered_cb :=
    CheckboxInput_render final_attrs (check_test str_values) name option_value in
  let option_label := conditional_escape (force_unicode opt.2) in
  (final_attrs,
   if truthy (dict_get final_attrs "inline" (PBool false))
   then checkbox_inline label_for (py_str rendered_cb) (py_str option_label)
   else checkbox_block label_for (py_str rendered_cb) (py_str option_label)).

Fixpoint checkbox_loop `{Framework} (name : pyval) (attrs : option dict)
    (str_values : gset string) (final_attrs : dict) (output : list string)
    (i : nat) (options : list (pyval * pyval)) : list string :=
  match options with
  | [] => output
  | opt :: rest =>
      let '(final_attrs, fragment) :=
        checkbox_body name attrs str_values final_attrs i opt in
      checkbox_loop name attrs str_values final_attrs (output ++ [fragment])
        (S i) rest
  end.

Definition AdminCheckboxSelect_render `{Framework} (self : Widget)
    (name : pyval) (value : option (list pyval)) (attrs : option dict)
    (choices : list (pyval * pyval)) : pyval :=
  let value := default [] value in
  let final_attrs := build_attrs self attrs in
  let str_values := str_values_of value in
  mark_safe (join nl (checkbox_loop name attrs str_values final_attrs []
                        0 (w_choices self ++ choices))).

(** ** xadmin/plugins/utils.py *)

(** What [get_context_dict] may be handed: a [RequestContext] with its
    stack of scopes, a plain [Context] with its own, a dictionary, or any
    other value. *)
Inductive context_obj :=
| RequestContext (dicts : list dict)
| Context (dicts : list dict)
| Dict (d : dict)
| Other (v : pyval).

Definition isinstance_RequestContext (context : context_obj) : bool :=
  match context with
  | RequestContext _ => true
  | _ => false
  end.

(** [for t in i: ctx[t] = i[t]]. *)
Definition copy_scope (ctx i : dict) : dict :=
  map_fold (λ t v ctx, <[t := v]> ctx) ctx i.

Definition get_context_dict (context : context_obj) : context_obj :=
  match context with
  | RequestContext dicts => Dict (foldl copy_scope ∅ dicts)
  | _ => context
  end.

(** ** Reading aids for the statements *)

(** The value the flattened context holds for [k] when later scopes win:
    the value in the last scope that has the key. *)
Fixpoint last_scope_value (k : string) (dicts : list dict) : option pyval :=
  match dicts with
  | [] => None
  | d :: rest =>
      match last_scope_value k rest with
      | Some v => Some v
      | None => d !! k
      end
  end.

(** The text an argument contributes to a [format_html] result. *)
Definition escaped (v : pyval) : string := py_str (conditional_escape v).

(** One attribute as [flatatt] writes it, and as it would read with the
    key and the value taken as they are. *)
Definition attr_fragment (kv : string * pyval) : string :=
  " " +:+ escaped (PStr kv.1) +:+ "=" +:+ dq +:+ escaped kv.2 +:+ dq.

Definition raw_attr_fragment (kv : string * pyval) : string :=
  " " +:+ kv.1 +:+ "=" +:+ dq +:+ py_str kv.2 +:+ dq.

Definition concat_str (l : list string) : string :=
  foldr String.app EmptyString l.

(** The attrs and the label reference of option [i] of a checkbox
    select, written from the attrs [base] that [build_attrs] returned. *)
Definition option_attrs (attrs : option dict) (base : dict) (i : nat) : dict :=
  if has_id_of attrs
  then <["id" := PStr (indexed_id (attrs_id attrs) (Z.of_nat i))]> base
  else base.

Definition option_label_for (attrs : option dict) (i : nat) : string :=
  if has_id_of attrs
  then " for=" +:+ dq +:+ indexed_id (attrs_id attrs) (Z.of_nat i) +:+ dq
  else EmptyString.

(** The checkbox the framework renders for option [i]. *)
Definition option_checkbox `{Framework} (name : pyval) (attrs : option dict)
    (str_values : gset string) (base : dict) (i : nat) (opt : pyval * pyval) : string :=
  py_str (CheckboxInput_render (option_attrs attrs base i) (check_test str_values)
            name (force_unicode opt.1)).

(** The labeled checkbox of option [i]. *)
Definition option_fragment `{Framework} (name : pyval) (attrs : option dict)
    (str_values : gset string) (base : dict) (i : nat) (opt : pyval * pyval) : string :=
  (if truthy (dict_get (option_attrs attrs base i) "inline" (PBool false))
   then checkbox_inline else checkbox_block)
    (option_label_for attrs i)
    (option_checkbox name attrs str_values base i opt)
    (escaped (force_unicode opt.2)).

(** [final_attrs] as the loop of the checkbox select carries it differs
    from what [build_attrs] returned in the id at most, and only when an id
    was given. *)
Definition carried (attrs : option dict) (fa base : dict) : Prop :=
  if has_id_of attrs
  then ∀ x : pyval, <["id" := x]> fa = <["id" := x]> base
  else fa = base.

(** What [tag] leaves in the input's attrs and what it returns, from the
    attrs [d] it finds there. *)
Definition tag_attrs (self : ChoiceInput) (d : dict) : dict :=
  match d !! "id" with
  | Some idv => <["id" := PStr (indexed_id idv (ci_index self))]> d
  | None => d
  end.

Definition tag_html (self : ChoiceInput) (d : dict) : pyval :=
  let final_attrs :=
    <["value" := choice_value self]>
      (<["name" := ci_name self]>
         (<["type" := input_type (ci_class self)]> (tag_attrs self d))) in
  let final_attrs :=
    if is_checked self then <["checked" := PStr "checked"]> final_attrs
    else final_attrs in
  format_html input_format [flatatt final_attrs].

(** The label reference and the markup of an [AdminRadioInput] whose own
    attrs hold [ds] when the label is built and whose effective attrs
    hold [da]. *)
Definition radio_label_for (self : ChoiceInput) (ds : dict) : string :=
  match ds !! "id" with
  | Some idv => " for=" +:+ dq +:+ indexed_id idv (ci_index self) +:+ dq
  | None => EmptyString
  end.

Definition radio_markup (self : ChoiceInput) (da ds : dict) : pyval :=
  mark_safe
    ((if truthy (dict_get da "inline" (PBool false)) then radio_inline else radio_block)
       (radio_label_for self ds)
       (py_str (tag_html self ds))
       (escaped (force_unicode (choice_label self)))).

(** The class attribute after [render] cleaned it. *)
Definition cleaned_class (d : dict) : option pyval :=
  str_replace (dict_get d "class" (PStr EmptyString)) "form-control" EmptyString.

(** [str(w)] for an input of class [c] built on its own copy [d] of the
    attrs, run in a store that holds nothing else. *)
Definition str_of_new_input (c : input_class) (name value : pyval) (d : dict)
    (choice : pyval * pyval) (i : Z) : option pyval :=
  (ChoiceInput_str (RadioChoiceInput_init c name value 1%positive choice i)
     {[1%positive := d]}).1.

(** A computation that leaves the store alone or rewrites the one
    dictionary at [l]. *)
Definition touches_only (l : loc) (h h' : heap) : Prop :=
  h' = h ∨ ∃ d : dict, h' = <[l := d]> h.

(** The class of the inputs a renderer builds, when it can build any. *)
Definition input_class_of (c : renderer_class) : option input_class :=
  match c with
  | AdminRadioFieldRenderer => Some AdminRadioInput
  | c => choice_input_class c
  end.

(** The markup of [ChoiceInput.render] for an input whose attrs hold [d]. *)
Definition base_markup (self : ChoiceInput) (d : dict) : pyval :=
  let label_for :=
    match d !! "id" with
    | Some idv => format_html for_format [idv; PInt (ci_index self)]
    | None => PStr EmptyString
    end in
  format_html label_format [label_for; tag_html self d; choice_label self].

(** The choices with their indices, counted from [i]. *)
Definition enumerate_from {A} (i : nat) (l : list A) : list (nat * A) :=
  imap (λ j x, (i + j, x)%nat) l.

(** Whether the character [c] occurs in [s]. *)
Fixpoint occurs (c : ascii) (s : string) : bool :=
  match s with
  | EmptyString => false
  | String x s' => bool_decide (x = c) || occurs c s'
  end.

(** ** Django 1.9's widgets, as far as the admin widgets reach them *)

Definition is_bool (v : pyval) : bool :=
  match v with
  | PBool _ => true
  | _ => false
  end.

Definition bare_format (args : list string) : string := " " +:+ field 0 args.

(** django.forms.utils.flatatt: an entry whose value is a boolean is
    written as its bare name, after the other entries and only when the
    value is true. *)
Definition Django_flatatt (attrs : dict) : pyval :=
  let key_value_attrs :=
    filter (λ kv : string * pyval, is_bool kv.2 = false) attrs in
  let boolean_attrs :=
    filter (λ kv : string * pyval, kv.2 = PBool true) attrs in
  mark_safe
    (py_str (format_html_join EmptyString attr_format
               ((λ kv : string * pyval, [PStr kv.1; kv.2])
                  <$> sorted_items key_value_attrs))
       +:+ py_str (format_html_join EmptyString bare_format
                     ((λ kv : string * pyval, [PStr kv.1])
                        <$> sorted_items boolean_attrs))).

(** [Widget.build_attrs(extra_attrs, **kwargs)]: the widget's attrs, then
    the keyword arguments, then the extra attrs when there are any. *)
Definition Django_build_attrs (self : Widget) (extra_attrs : option dict)
    (kwargs : dict) : dict :=
  dict_update (dict_update (w_attrs self) kwargs) (default ∅ extra_attrs).

(** [Input.render]: the value attribute is written only for a value that
    is neither [None] nor the empty string.  The values of this model are
    not dates, so [_format_value] leaves them as they are. *)
Definition Django_Input_render (self : Widget) (name value : pyval)
    (attrs : option dict) : pyval :=
  let value := match value with PNone => PStr EmptyString | _ => value end in
  let final_attrs :=
    Django_build_attrs self attrs
      (<["name" := name]> {["type" := w_input_type self]}) in
  let final_attrs :=
    if py_eq value (PStr EmptyString) then final_attrs
    else <["value" := force_text value]> final_attrs in
  format_html input_format [Django_flatatt final_attrs].

(** [value is True or value is False or value is None or value == ''] *)
Definition no_value_attribute (value : pyval) : bool :=
  match value with
  | PBool _ | PNone => true
  | _ => py_eq value (PStr EmptyString)
  end.

(** The attributes [CheckboxInput(attrs, check_test).render(name, value)]
    writes: the attrs it was built from, type and name over them, checked
    added when the test holds of the value, and the value unless it is a
    boolean, [None] or empty. *)
Definition Django_checkbox_attrs (attrs : dict) (check_test : pyval → bool)
    (name value : pyval) : dict :=
  let self := Widget_init (Some attrs) None in
  let final_attrs :=
    Django_build_attrs self None
      (<["name" := name]> {["type" := PStr "checkbox"]}) in
  let final_attrs :=
    if check_test value then <["checked" := PStr "checked"]> final_attrs
    else final_attrs in
  if no_value_attribute value then final_attrs
  else <["value" := force_text value]> final_attrs.

Definition Django_CheckboxInput_render (attrs : dict) (check_test : pyval → bool)
    (name value : pyval) : pyval :=
  format_html input_format
    [Django_flatatt (Django_checkbox_attrs attrs check_test name value)].

(** [TextInput.__init__]: a type among the attrs is taken out of them and
    becomes the input type, which is text otherwise. *)
Definition Django_TextInput_init (attrs : option dict) : Widget :=
  match attrs with
  | Some a =>
      {| w_attrs := delete "type" a; w_format := None; w_choices := [];
         w_input_type := dict_get a "type" (PStr "text") |}
  | None =>
      {| w_attrs := ∅; w_format := None; w_choices := [];
         w_input_type := PStr "text" |}
  end.

(** [DateTimeBaseInput.__init__]: [format if format else None]. *)
Definition Django_DateTimeBaseInput_init (attrs : option dict)
    (format : option pyval) : Widget :=
  let w := Django_TextInput_init attrs in
  {| w_attrs := w_attrs w;
     w_format := match format with
                 | Some f => if truthy f then Some f else None
                 | None => None
                 end;
     w_choices := w_choices w;
     w_input_type := w_input_type w |}.

(** [Textarea.__init__]: cols and rows are defaults of its own, under the
    attrs it is given. *)
Definition Django_Textarea_init (attrs : option dict) : Widget :=
  let default_attrs : dict := <["cols" := PStr "40"]> {["rows" := PStr "10"]} in
  Widget_init (Some (dict_update default_attrs (default ∅ attrs))) None.

(** [Select.__init__] with no choices given. *)
Definition Django_Select_init (attrs : option dict) : Widget :=
  Widget_init attrs None.

(** The framework as Django 1.9 defines it, with no translation active. *)
Definition sample_framework : Framework :=
  {| ugettext := λ s, s;
     DateInput_render := Django_Input_render;
     TimeInput_render := Django_Input_render;
     build_attrs := λ w attrs, Django_build_attrs w attrs ∅;
     CheckboxInput_render := Django_CheckboxInput_render;
     DateInput_init := Django_DateTimeBaseInput_init;
     TimeInput_init := Django_DateTimeBaseInput_init;
     SelectMultiple_init := Django_Select_init;
     Textarea_init := Django_Textarea_init;
     TextInput_init := Django_TextInput_init |}.

(** The base constructor each admin widget class hands its attrs to. *)
Definition base_init `{Framework} (c : admin_widget) (attrs : option dict)
    (format : option pyval) : Widget :=
  match c with
  | AdminDateWidget => DateInput_init attrs format
  | AdminTimeWidget => TimeInput_init attrs format
  | AdminSelectMultiple => SelectMultiple_init attrs
  | AdminTextareaWidget => Textarea_init attrs
  | _ => TextInput_init attrs
  end.

(** Sample data: a radio input for the choice (r, R&B) of a field named
    color, stores in which its attrs, at location 1, ask for the inline
    layout or carry an id, and a renderer with two choices. *)
Definition sample_input_obj (c : input_class) : ChoiceInput :=
  RadioChoiceInput_init c (PStr "color") (PStr "r") 1%positive
    (PStr "r", PStr "R&B") 0.

Definition inline_attrs : dict := {["inline" := PBool true]}.
Definition id_attrs : dict := {["id" := PStr "id_color"]}.

Definition sample_heap (d : dict) : heap := {[1%positive := d]}.

Definition sample_renderer (c : renderer_class) : Renderer :=
  {| r_class := c;
     r_name := PStr "color";
     r_value := PStr "g";
     r_attrs := 1%positive;
     r_choices := [(PStr "r", PStr "R&B"); (PStr "g", PSafe "<b>G</b>")] |}.

(** The text of every input of a renderer, as [str] gives it for an input
    built on a copy [d] of the attrs. *)
Definition input_texts (c : input_class) (self : Renderer) (d : dict) : option (list string) :=
  mapM (λ ic : nat * (pyval * pyval),
          py_str <$> str_of_new_input c (r_name self) (r_value self) d
                       ic.2 (Z.of_nat ic.1))
    (enumerate_from 0 (r_choices self)).

(** The number of occurrences of the character [c] in [s]. *)
Fixpoint count_char (c : ascii) (s : string) : nat :=
  match s with
  | EmptyString => 0%nat
  | String x s' => ((if bool_decide (x = c) then 1 else 0) + count_char c s')%nat
  end.

(** Whether a value is a [SafeText]. *)
Definition is_safe (v : pyval) : bool :=
  match v with
  | PSafe _ => true
  | _ => false
  end.

(** Whether [old] occurs in [s] as a substring. *)
Fixpoint contains (old s : string) : bool :=
  String.prefix old s ||
  match s with
  | EmptyString => false
  | String _ s' => contains old s'
  end.

(** A store with the attrs of an input at location 1 and the attrs handed
    to [render] at location 2. *)
Definition two_dicts_heap (own passed : dict) : heap :=
  <[2%positive := passed]> {[1%positive := own]}.

(** [flatatt] for a dictionary whose key with the text [k] is the string
    object [key_obj k], which may be a [SafeText]: the items are sorted by
    the texts of the keys, and the key object is what is formatted. *)
Definition flatatt_of (key_obj : string → pyval) (attrs : dict) : pyval :=
  format_html_join EmptyString attr_format
    ((λ kv : string * pyval, [key_obj kv.1; kv.2]) <$> sorted_items attrs).

(** One attribute as [flatatt_of] writes it. *)
Definition keyed_fragment (key_obj : string → pyval) (kv : string * pyval) : string :=
  " " +:+ escaped (key_obj kv.1) +:+ "=" +:+ dq +:+ escaped kv.2 +:+ dq.

(** * Properties *)

(** ** get_context_dict *)

Lemma copy_scope_lookup (ctx i : dict) (k : string) :
  copy_scope ctx i !! k = match i !! k with Some v => Some v | None => ctx !! k end.
Proof.
  unfold copy_scope.
  apply (map_fold_weak_ind
           (λ r m, r !! k = match m !! k with Some v => Some v | None => ctx !! k end)).
  - by rewrite lookup_empty.
  - intros t x m r Hm IH.
    destruct (decide (t = k)) as [->|Hne].
    + by rewrite !lookup_insert_eq.
    + by rewrite !lookup_insert_ne.
Qed.

Lemma flatten_lookup (dicts : list dict) (acc : dict) (k : string) :
  foldl copy_scope acc dicts !! k =
    match last_scope_value k dicts with Some v => Some v | None => acc !! k end.
Proof.
  revert acc. induction dicts as [|d rest IH]; intros acc; simpl; [done|].
  rewrite IH. destruct (last_scope_value k rest); [done|].
  apply copy_scope_lookup.
Qed.

Lemma last_scope_value_Some (k : string) (dicts : list dict) (v : pyval) :
  last_scope_value k dicts = Some v ↔
  ∃ (i : nat) (d : dict), dicts !! i = Some d ∧ d !! k = Some v ∧
    ∀ (j : nat) (d' : dict), (i < j)%nat → dicts !! j = Some d' → d' !! k = None.
Proof.
  revert v. induction dicts as [|d rest IH]; intros v; simpl.
  - split; [done|]. by intros (i & d & Hi & _).
  - destruct (last_scope_value k rest) as [w|] eqn:Hrest.
    + split.
      * intros [= ->]. destruct (proj1 (IH v) eq_refl) as (i & d0 & Hi & Hk & Hlater).
        exists (S i), d0. split_and!; [done..|].
        intros [|j] d' Hj Hd'; [lia|]. apply (Hlater j); [lia|done].
      * intros ([|i] & d0 & Hi & Hk & Hlater); simplify_eq/=.
        -- destruct (proj1 (IH w) eq_refl) as (i & d1 & Hi & Hk1 & _).
           specialize (Hlater (S i) d1 ltac:(lia) Hi). congruence.
        -- f_equal. symmetry. apply Some_inj. rewrite <- Hk.
           destruct (proj1 (IH w) eq_refl) as (i' & d1 & Hi' & Hk1 & Hl1).
           destruct (Nat.lt_trichotomy i i') as [Hlt|[->|Hgt]].
           ++ specialize (Hlater (S i') d1 ltac:(lia) Hi'). congruence.
           ++ congruence.
           ++ specialize (Hl1 i d0 Hgt Hi). congruence.
    + split.
      * intros Hd. exists 0%nat, d. split_and!; [done..|].
        intros [|j] d' Hj Hd'; [lia|]. simpl in Hd'.
        destruct (d' !! k) as [w|] eqn:Hw; [|done].
        assert (is_Some (last_scope_value k rest)) as [? ?]; [|congruence].
        clear -Hd' Hw. revert j Hd'. induction rest as [|d1 rest IH']; intros j Hj; [done|].
        simpl. destruct j as [|j]; simplify_eq/=.
        -- rewrite Hw. destruct (last_scope_value k rest); eauto.
        -- destruct (IH' j Hj) as [? ->]. eauto.
      * intros ([|i] & d0 & Hi & Hk & Hlater); simplify_eq/=; [done|].
        assert (is_Some (last_scope_value k rest)) as [? ?]; [|congruence].
        clear -Hi Hk. revert i Hi. induction rest as [|d1 rest IH']; intros i Hi; [done|].
        simpl. destruct i as [|i]; simplify_eq/=.
        -- rewrite Hk. destruct (last_scope_value k rest); eauto.
        -- destruct (IH' i Hi) as [? ->]. eauto.
Qed.

(** C1. [get_context_dict] turns a [RequestContext] into one flat
    dictionary whose entries are exactly the entries of the scopes in
    [context.dicts], the last scope holding a key giving its value; any
    other object is returned as it is. *)
Theorem get_context_dict_flat (context : context_obj) :
  if isinstance_RequestContext context
  then ∃ (dicts : list dict) (flat : dict),
         context = RequestContext dicts ∧
         get_context_dict context = Dict flat ∧
         ∀ (k : string) (v : pyval),
           flat !! k = Some v ↔
           ∃ (i : nat) (d : dict), dicts !! i = Some d ∧ d !! k = Some v ∧
             ∀ (j : nat) (d' : dict),
               (i < j)%nat → dicts !! j = Some d' → d' !! k = None
  else get_context_dict context = context.
Proof.
  destruct context as [dicts| | |]; simpl; try done.
  exists dicts, (foldl copy_scope ∅ dicts). split_and!; [done..|].
  intros k v. rewrite flatten_lookup, lookup_empty, <- last_scope_value_Some.
  by destruct (last_scope_value k dicts).
Qed.

(** ** flatatt *)

Lemma app_empty_r (s : string) : s +:+ EmptyString = s.
Proof.
  induction s as [|c s IH]; [done|].
  change (String c (s +:+ EmptyString) = String c s). by rewrite IH.
Qed.

Lemma app_assoc_str (a b c : string) : (a +:+ b) +:+ c = a +:+ b +:+ c.
Proof.
  induction a as [|x a IH]; [done|].
  change (String x ((a +:+ b) +:+ c) = String x (a +:+ b +:+ c)). by rewrite IH.
Qed.

Lemma join_empty_sep (l : list string) : join EmptyString l = concat_str l.
Proof.
  induction l as [|x [|y l] IH]; [done| |].
  - simpl. by rewrite app_empty_r.
  - change (join EmptyString (x :: y :: l))
      with (x +:+ EmptyString +:+ join EmptyString (y :: l)).
    rewrite IH. done.
Qed.

Lemma format_attr (kv : string * pyval) :
  py_str (format_html attr_format [PStr kv.1; kv.2]) = attr_fragment kv.
Proof. destruct kv as [k v]. reflexivity. Qed.

Lemma flatatt_fragments (attrs : dict) :
  flatatt attrs = mark_safe (concat_str (attr_fragment <$> sorted_items attrs)).
Proof.
  unfold flatatt, format_html_join. f_equal.
  change (py_str (conditional_escape (PStr EmptyString))) with EmptyString.
  rewrite join_empty_sep. f_equal.
  rewrite <- list_fmap_compose. apply list_fmap_ext. intros _ kv _. apply format_attr.
Qed.

Lemma sorted_items_spec (attrs : dict) :
  sorted_items attrs ≡ₚ map_to_list attrs ∧
  StronglySorted item_le (sorted_items attrs) ∧
  NoDup (sorted_items attrs).*1.
Proof.
  unfold sorted_items. split_and!.
  - apply merge_sort_Permutation.
  - apply (StronglySorted_merge_sort _).
  - rewrite merge_sort_Permutation. apply NoDup_fst_map_to_list.
Qed.

(** C2 (amended). [flatatt] returns, marked safe, the concatenation in
    ascending key order of one fragment per entry: a space, the key, an
    equals sign and the value between double quotes, the key and the value
    each passed through [conditional_escape]; the empty dictionary gives
    the empty string. *)
Theorem flatatt_sorted_escaped (attrs : dict) :
  (∃ items : list (string * pyval),
     items ≡ₚ map_to_list attrs ∧
     StronglySorted item_le items ∧
     NoDup items.*1 ∧
     flatatt attrs = mark_safe (concat_str (attr_fragment <$> items))) ∧
  flatatt ∅ = mark_safe EmptyString.
Proof.
  split; [|done].
  exists (sorted_items attrs).
  destruct (sorted_items_spec attrs) as (? & ? & ?).
  split_and!; [done..|]. apply flatatt_fragments.
Qed.

(** C2 as worded fails: with the value taken as it is, the fragment for
    [title] with value [a<b] would keep the angle bracket, while [flatatt]
    writes the entity. *)
Lemma flatatt_raw_counterexample :
  let attrs : dict := {["title" := PStr "a<b"]} in
  flatatt attrs = mark_safe (" title=" +:+ dq +:+ "a&lt;b" +:+ dq) ∧
  ¬ ∃ items : list (string * pyval),
      items ≡ₚ map_to_list attrs ∧
      flatatt attrs = mark_safe (concat_str (raw_attr_fragment <$> items)).
Proof.
  intros attrs. split; [by vm_compute|].
  intros (items & Hperm & Heq).
  unfold attrs in Hperm. rewrite map_to_list_singleton in Hperm.
  apply Permutation_singleton_r in Hperm as ->.
  vm_compute in Heq. discriminate Heq.
Qed.

(** ** Constructors *)

Lemma final_attrs_of_lookup (defaults : dict) (attrs : option dict) (k : string) :
  final_attrs_of defaults attrs !! k =
    match attrs ≫= (.!! k) with
    | Some v => Some v
    | None => defaults !! k
    end.
Proof.
  destruct attrs as [a|]; simpl; [|done].
  unfold dict_update. rewrite lookup_union.
  destruct (a !! k), (defaults !! k); done.
Qed.

Lemma final_attrs_of_union (defaults : dict) (attrs : option dict) :
  final_attrs_of defaults attrs =
    from_option (λ a : dict, a ∪ defaults) defaults attrs.
Proof. by destruct attrs. Qed.

Lemma admin_init_base `{Framework} (c : admin_widget) (attrs : option dict)
    (format : option pyval) :
  admin_init c attrs format =
    base_init c (Some (final_attrs_of (admin_defaults c) attrs)) format.
Proof. by destruct c. Qed.

(** C6. Every constructor with a default attribute set hands to the
    constructor of its base class one dictionary: its default set, which
    is class date-field and size 10 for the date widget, class time-field
    and size 8 for the time widget, and the one class select-multi,
    textarea-field, text-field, url-field, int-field or sep-int-field for
    the others, updated with the caller's attrs when there are any.  In
    that dictionary a key the caller supplied has the caller's value and
    every other key has its default. *)
Theorem admin_init_defaults `{Framework} (attrs : option dict)
    (format : option pyval) :
  let final (defaults : dict) : dict :=
    from_option (λ a : dict, a ∪ defaults) defaults attrs in
  AdminDateWidget_init attrs format =
    DateInput_init
      (Some (final (<["class" := PStr "date-field"]> (<["size" := PStr "10"]> ∅))))
      format ∧
  AdminTimeWidget_init attrs format =
    TimeInput_init
      (Some (final (<["class" := PStr "time-field"]> (<["size" := PStr "8"]> ∅))))
      format ∧
  AdminSelectMultiple_init attrs =
    SelectMultiple_init (Some (final {["class" := PStr "select-multi"]})) ∧
  AdminTextareaWidget_init attrs =
    Textarea_init (Some (final {["class" := PStr "textarea-field"]})) ∧
  AdminTextInputWidget_init attrs =
    TextInput_init (Some (final {["class" := PStr "text-field"]})) ∧
  AdminURLFieldWidget_init attrs =
    TextInput_init (Some (final {["class" := PStr "url-field"]})) ∧
  AdminIntegerFieldWidget_init attrs =
    TextInput_init (Some (final {["class" := PStr "int-field"]})) ∧
  AdminCommaSeparatedIntegerFieldWidget_init attrs =
    TextInput_init (Some (final {["class" := PStr "sep-int-field"]})) ∧
  ∀ (defaults : dict) (k : string),
    final defaults !! k =
      match attrs ≫= (.!! k) with
      | Some v => Some v
      | None => defaults !! k
      end.
Proof.
  intros final.
  assert (∀ defaults, final_attrs_of defaults attrs = final defaults) as Hfinal
    by (intros; apply final_attrs_of_union).
  split_and!;
    try (unfold AdminDateWidget_init, AdminTimeWidget_init, AdminSelectMultiple_init,
           AdminTextareaWidget_init, AdminTextInputWidget_init,
           AdminURLFieldWidget_init, AdminIntegerFieldWidget_init,
           AdminCommaSeparatedIntegerFieldWidget_init;
         rewrite Hfinal; reflexivity).
  intros defaults k. rewrite <- Hfinal. apply final_attrs_of_lookup.
Qed.

(** ** Date, time and split date-time rendering *)

Section wrappers.
Context `{Framework}.

(** C7. The date and the time widget return what the base class
    rendered, unchanged, between a prefix and a suffix that do not depend
    on the arguments: before it the opening input-group div and the addon
    span with the calendar or clock icon, after it the button span, whose
    button shows the translation of Today or Now, and the closing div.
    The split widget returns its two rendered parts, in order, inside the
    datetime clearfix div. *)
Theorem wrappers_keep_base_html :
  let q := String "034"%char EmptyString in
  (∀ (self : Widget) (name value : pyval) (attrs : option dict),
     AdminDateWidget_render self name value attrs =
       mark_safe
         ("<div class=" +:+ q +:+ "input-group date bootstrap-datepicker" +:+ q
            +:+ "><span class=" +:+ q +:+ "input-group-addon" +:+ q
            +:+ "><i class=" +:+ q +:+ "fa fa-calendar" +:+ q +:+ "></i></span>"
            +:+ py_str (DateInput_render self name value attrs)
            +:+ "<span class=" +:+ q +:+ "input-group-btn" +:+ q
            +:+ "><button class=" +:+ q +:+ "btn btn-default" +:+ q
            +:+ " type=" +:+ q +:+ "button" +:+ q +:+ ">"
            +:+ ugettext "Today" +:+ "</button></span></div>")) ∧
  (∀ (self : Widget) (name value : pyval) (attrs : option dict),
     AdminTimeWidget_render self name value attrs =
       mark_safe
         ("<div class=" +:+ q +:+ "input-group time bootstrap-clockpicker" +:+ q
            +:+ "><span class=" +:+ q +:+ "input-group-addon" +:+ q
            +:+ "><i class=" +:+ q +:+ "fa fa-clock-o" +:+ q +:+ "></i></span>"
            +:+ py_str (TimeInput_render self name value attrs)
            +:+ "<span class=" +:+ q +:+ "input-group-btn" +:+ q
            +:+ "><button class=" +:+ q +:+ "btn btn-default" +:+ q
            +:+ " type=" +:+ q +:+ "button" +:+ q +:+ ">"
            +:+ ugettext "Now" +:+ "</button></span></div>")) ∧
  (∀ (a b : pyval) (rest : list pyval),
     format_output (a :: b :: rest) =
       Some (mark_safe ("<div class=" +:+ q +:+ "datetime clearfix" +:+ q +:+ ">"
                          +:+ py_str a +:+ py_str b +:+ "</div>"))).
Proof.
  intros q. split_and!.
  - intros. unfold AdminDateWidget_render, date_prefix, button_span, addon_span, quoted.
    f_equal. rewrite !app_assoc_str. reflexivity.
  - intros. unfold AdminTimeWidget_render, time_prefix, button_span, addon_span, quoted.
    f_equal. rewrite !app_assoc_str. reflexivity.
  - intros. reflexivity.
Qed.
End wrappers.

(** ** AdminCheckboxSelect.render *)

Section checkbox_select.
Context `{Framework}.
Implicit Types (attrs : option dict) (base fa : dict) (name : pyval).

Lemma dict_get_insert_eq fa (k : string) (v x : pyval) :
  dict_get (<[k := v]> fa) k x = v.
Proof. unfold dict_get. by rewrite lookup_insert_eq. Qed.

Lemma carried_start attrs base : carried attrs base base.
Proof. unfold carried. by destruct (has_id_of attrs). Qed.

Lemma carried_option_attrs attrs fa base i :
  carried attrs fa base → option_attrs attrs fa i = option_attrs attrs base i.
Proof.
  unfold carried, option_attrs. destruct (has_id_of attrs); [|done].
  intros Hc. apply Hc.
Qed.

Lemma carried_next attrs base i : carried attrs (option_attrs attrs base i) base.
Proof.
  unfold carried, option_attrs. destruct (has_id_of attrs); [|done].
  intros x. apply insert_insert_eq.
Qed.

Lemma checkbox_body_carried name attrs sv fa base i opt :
  carried attrs fa base →
  checkbox_body name attrs sv fa i opt =
    (option_attrs attrs base i, option_fragment name attrs sv base i opt).
Proof.
  intros Hc. unfold checkbox_body, option_fragment, option_checkbox.
  rewrite <- (carried_option_attrs _ _ _ i Hc).
  unfold option_attrs, option_label_for, escaped.
  destruct (has_id_of attrs); [|by destruct (truthy _)].
  rewrite !(dict_get_insert_eq _ "id"). simpl.
  by destruct (truthy _).
Qed.

Lemma checkbox_loop_fragments name attrs sv fa base output i options :
  carried attrs fa base →
  checkbox_loop name attrs sv fa output i options =
    output ++ imap (λ j, option_fragment name attrs sv base (i + j)) options.
Proof.
  revert fa output i. induction options as [|opt rest IH]; intros fa output i Hc.
  - simpl. by rewrite app_nil_r.
  - cbn [checkbox_loop]. rewrite (checkbox_body_carried _ _ _ _ base) by done.
    rewrite (IH _ _ _ (carried_next attrs base i)).
    rewrite <- app_assoc. cbn [imap app]. rewrite Nat.add_0_r. do 2 f_equal.
    apply imap_ext. intros j x _. simpl. f_equal. lia.
Qed.

Lemma checkbox_render_fragments (self : Widget) name (value : option (list pyval))
    attrs (choices : list (pyval * pyval)) :
  AdminCheckboxSelect_render self name value attrs choices =
    mark_safe (join nl (imap (option_fragment name attrs
                                (str_values_of (default [] value))
                                (build_attrs self attrs))
                          (w_choices self ++ choices))).
Proof.
  unfold AdminCheckboxSelect_render.
  rewrite (checkbox_loop_fragments _ _ _ _ _ _ _ _ (carried_start _ _)).
  done.
Qed.



Lemma join_concat (sep : string) (l : list string) :
  join sep l = String.concat sep l.
Proof.
  induction l as [|x [|y l] IH]; [done..|].
  change (x +:+ sep +:+ join sep (y :: l) = x +:+ sep +:+ String.concat sep (y :: l)).
  by rewrite IH.
Qed.

Lemma Django_checkbox_checked (fa : dict) (test : pyval → bool) (name value : pyval) :
  Django_checkbox_attrs fa test name value !! "checked" =
    if test value then Some (PStr "checked") else fa !! "checked".
Proof.
  unfold Django_checkbox_attrs, Django_build_attrs, dict_update. simpl.
  assert ((∅ ∪ (<["name" := name]> {["type" := PStr "checkbox"]} ∪ fa) : dict)
            !! "checked" = fa !! "checked") as Hbase.
  { rewrite (left_id_L ∅ (∪)), lookup_union_r; [done|]. by simplify_map_eq. }
  destruct (test value), (no_value_attribute value);
    rewrite ?(lookup_insert_ne _ "value") by done;
    rewrite ?lookup_insert_eq; done.
Qed.


(** C10 (amended). With [None] for the value the output is the one for
    the empty list: the test handed to every checkbox holds of no value,
    so Django's checkbox input writes no checked attribute of its own and
    a checkbox carries one only when the attrs it was built from hold
    it. *)
Theorem checkbox_select_none_value (self : Widget) name attrs
    (choices : list (pyval * pyval)) :
  let options := w_choices self ++ choices in
  let newline := String "010"%char EmptyString in
  AdminCheckboxSelect_render self name None attrs choices =
    AdminCheckboxSelect_render self name (Some []) attrs choices ∧
  (∃ (test : pyval → bool) (fragments : list string),
     (∀ v : pyval, test v = false) ∧
     AdminCheckboxSelect_render self name None attrs choices =
       mark_safe (String.concat newline fragments) ∧
     length fragments = length options ∧
     ∀ (i : nat) (opt : pyval * pyval),
       options !! i = Some opt →
       ∃ layout : string → string → string → string,
         (layout = checkbox_inline ∨ layout = checkbox_block) ∧
         fragments !! i =
           Some (layout (option_label_for attrs i)
                   (py_str (CheckboxInput_render
                              (option_attrs attrs (build_attrs self attrs) i)
                              test name (force_unicode opt.1)))
                   (escaped (force_unicode opt.2)))) ∧
  (∀ (fa : dict) (test : pyval → bool) (name' value' : pyval),
     (∀ v : pyval, test v = false) →
     @CheckboxInput_render sample_framework fa test name' value' =
       mark_safe ("<input"
                    +:+ py_str (Django_flatatt
                                  (Django_checkbox_attrs fa test name' value'))
                    +:+ " />") ∧
     Django_checkbox_attrs fa test name' value' !! "checked" = fa !! "checked").
Proof.
  intros options newline. split_and!; [done| |].
  - exists (check_test ∅),
      (imap (option_fragment name attrs ∅ (build_attrs self attrs)) options).
    split_and!.
    + intros v. unfold check_test. destruct (as_text v); [|done].
      apply bool_decide_eq_false. set_solver.
    + rewrite checkbox_render_fragments. by rewrite join_concat.
    + apply length_imap.
    + intros i opt Hi.
      exists (if truthy (dict_get (option_attrs attrs (build_attrs self attrs) i)
                           "inline" (PBool false))
              then checkbox_inline else checkbox_block).
      split; [destruct (truthy _); auto|].
      rewrite list_lookup_imap, Hi. done.
  - intros fa test name' value' Hfalse. split; [reflexivity|].
    rewrite Django_checkbox_checked. by rewrite Hfalse.
Qed.
End checkbox_select.


(** C10 as worded fails on the output: with attrs that hold a checked
    entry and [None] for the value, both checkboxes are written with the
    checked attribute. *)
Lemma checkbox_none_checked_by_attrs_counterexample :
  let q := String "034"%char EmptyString in
  let newline := String "010"%char EmptyString in
  @AdminCheckboxSelect_render sample_framework (Widget_init None None)
    (PStr "tags") None (Some {["checked" := PStr "checked"]})
    [(PStr "1", PStr "one"); (PStr "2", PStr "two")] =
    mark_safe ("<div class=" +:+ q +:+ "checkbox" +:+ q +:+ "><label><input checked="
                 +:+ q +:+ "checked" +:+ q +:+ " name=" +:+ q +:+ "tags" +:+ q
                 +:+ " type=" +:+ q +:+ "checkbox" +:+ q +:+ " value=" +:+ q
                 +:+ "1" +:+ q +:+ " /> one</label></div>" +:+ newline
                 +:+ "<div class=" +:+ q +:+ "checkbox" +:+ q +:+ "><label><input checked="
                 +:+ q +:+ "checked" +:+ q +:+ " name=" +:+ q +:+ "tags" +:+ q
                 +:+ " type=" +:+ q +:+ "checkbox" +:+ q +:+ " value=" +:+ q
                 +:+ "2" +:+ q +:+ " /> two</label></div>").
Proof. vm_compute. reflexivity. Qed.

(** ** The store *)

Lemma bind_Some {A B} (m : M A) (k : A → M B) (h h' : heap) (a : A) :
  m h = (Some a, h') → bind m k h = k a h'.
Proof. unfold bind. by intros ->. Qed.

Lemma bind_None {A B} (m : M A) (k : A → M B) (h h' : heap) :
  m h = (None, h') → bind m k h = (None, h').
Proof. unfold bind. by intros ->. Qed.

Lemma load_Some (l : loc) (h : heap) (d : dict) :
  h !! l = Some d → load l h = (Some d, h).
Proof. unfold load. by intros ->. Qed.

Lemma load_None (l : loc) (h : heap) :
  h !! l = None → load l h = (None, h).
Proof. unfold load. by intros ->. Qed.

(** ** ChoiceInput.tag *)

Lemma tag_run (self : ChoiceInput) (h : heap) :
  tag self h =
    match h !! ci_attrs self with
    | Some d => (Some (tag_html self d), <[ci_attrs self := tag_attrs self d]> h)
    | None => (None, h)
    end.
Proof.
  unfold tag. destruct (h !! ci_attrs self) as [d|] eqn:Hl.
  - rewrite (bind_Some _ _ _ _ _ (load_Some _ _ _ Hl)).
    unfold tag_html, tag_attrs. destruct (d !! "id") as [idv|] eqn:Hid.
    + erewrite bind_Some by reflexivity.
      erewrite bind_Some by (apply load_Some, lookup_insert_eq).
      reflexivity.
    + erewrite bind_Some by reflexivity.
      rewrite (bind_Some _ _ _ _ _ (load_Some _ _ _ Hl)).
      unfold ret. f_equal. symmetry. by apply insert_id.
  - by rewrite (bind_None _ _ _ _ (load_None _ _ Hl)).
Qed.

(** ** AdminRadioInput.render *)

Lemma dict_get_insert_ne (d : dict) (k k' : string) (v x : pyval) :
  k ≠ k' → dict_get (<[k := v]> d) k' x = dict_get d k' x.
Proof. intros Hne. unfold dict_get. by rewrite lookup_insert_ne. Qed.

Lemma AdminRadioInput_render_run (self : ChoiceInput) (attrs : option loc)
    (h : heap) (la : loc) (da ds : dict) (cls : pyval) :
  or_attrs attrs (ci_attrs self) h = (Some la, h) →
  h !! la = Some da →
  cleaned_class da = Some cls →
  <[la := <["class" := cls]> da]> h !! ci_attrs self = Some ds →
  AdminRadioInput_render self attrs h =
    (Some (radio_markup self da ds),
     <[ci_attrs self := tag_attrs self ds]> (<[la := <["class" := cls]> da]> h)).
Proof.
  intros Hor Hla Hcls Hds. unfold AdminRadioInput_render.
  rewrite (bind_Some _ _ _ _ _ Hor).
  rewrite (bind_Some _ _ _ _ _ (load_Some _ _ _ Hla)).
  unfold cleaned_class in Hcls.
  erewrite bind_Some by (unfold lift; rewrite Hcls; reflexivity).
  erewrite bind_Some by reflexivity.
  rewrite (bind_Some _ _ _ _ _ (load_Some _ _ _ Hds)).
  erewrite bind_Some by (apply load_Some, lookup_insert_eq).
  rewrite dict_get_insert_ne by done.
  unfold radio_markup, radio_label_for, escaped.
  destruct (truthy (dict_get da "inline" (PBool false)));
    (erewrite bind_Some by (rewrite tag_run, Hds; reflexivity)); reflexivity.
Qed.

Lemma AdminRadioInput_render_raise (self : ChoiceInput) (attrs : option loc)
    (h : heap) (la : loc) (da : dict) :
  or_attrs attrs (ci_attrs self) h = (Some la, h) →
  h !! la = Some da →
  cleaned_class da = None →
  AdminRadioInput_render self attrs h = (None, h).
Proof.
  intros Hor Hla Hcls. unfold AdminRadioInput_render.
  rewrite (bind_Some _ _ _ _ _ Hor).
  rewrite (bind_Some _ _ _ _ _ (load_Some _ _ _ Hla)).
  unfold cleaned_class in Hcls.
  erewrite bind_None by (unfold lift; rewrite Hcls; reflexivity).
  reflexivity.
Qed.

(** [str] of an [AdminRadioInput]: the markup is written from the attrs
    with the class cleaned, and only the input's own attrs change. *)
Lemma AdminRadioInput_str_run (w : ChoiceInput) (h : heap) :
  ci_class w = AdminRadioInput →
  ChoiceInput_str w h =
    match h !! ci_attrs w with
    | Some d =>
        match cleaned_class d with
        | Some cls =>
            (Some (radio_markup w d (<["class" := cls]> d)),
             <[ci_attrs w := tag_attrs w (<["class" := cls]> d)]> h)
        | None => (None, h)
        end
    | None => (None, h)
    end.
Proof.
  intros Hc. unfold ChoiceInput_str. rewrite Hc.
  destruct (h !! ci_attrs w) as [d|] eqn:Hl.
  - destruct (cleaned_class d) as [cls|] eqn:Hcls.
    + rewrite (AdminRadioInput_render_run w None h (ci_attrs w) d
                 (<["class" := cls]> d) cls); try done.
      * by rewrite insert_insert_eq.
      * apply lookup_insert_eq.
    + by apply (AdminRadioInput_render_raise w None h (ci_attrs w) d).
  - unfold AdminRadioInput_render, or_attrs.
    erewrite bind_Some by reflexivity.
    by rewrite (bind_None _ _ _ _ (load_None _ _ Hl)).
Qed.

(** ** ChoiceInput.render *)

Lemma ChoiceInput_render_run (self : ChoiceInput) (h : heap) :
  ChoiceInput_render self None h =
    match h !! ci_attrs self with
    | Some d => (Some (base_markup self d), <[ci_attrs self := tag_attrs self d]> h)
    | None => (None, h)
    end.
Proof.
  unfold ChoiceInput_render, or_attrs. erewrite bind_Some by reflexivity.
  destruct (h !! ci_attrs self) as [d|] eqn:Hl.
  - rewrite (bind_Some _ _ _ _ _ (load_Some _ _ _ Hl)).
    erewrite bind_Some by (rewrite tag_run, Hl; reflexivity).
    reflexivity.
  - by rewrite (bind_None _ _ _ _ (load_None _ _ Hl)).
Qed.

Lemma ChoiceInput_str_touches (w : ChoiceInput) (h : heap) :
  touches_only (ci_attrs w) h (ChoiceInput_str w h).2.
Proof.
  destruct (ci_class w) eqn:Hc.
  - unfold ChoiceInput_str. rewrite Hc, ChoiceInput_render_run.
    destruct (h !! ci_attrs w); [right; eauto | by left].
  - rewrite AdminRadioInput_str_run by done.
    destruct (h !! ci_attrs w) as [d|]; [|by left].
    destruct (cleaned_class d); [right; eauto | by left].
Qed.

(** ** Building the inputs *)

Lemma fresh_unused (h : heap) : h !! fresh (dom h) = None.
Proof. apply not_elem_of_dom, is_fresh. Qed.

Lemma new_input_run (self : Renderer) (choice : pyval * pyval) (i : Z) (h : heap) :
  new_input self choice i h =
    match h !! r_attrs self with
    | Some d =>
        let l := fresh (dom h) in
        ((λ cic, RadioChoiceInput_init cic (r_name self) (r_value self) l choice i)
           <$> input_class_of (r_class self),
         <[l := d]> h)
    | None => (None, h)
    end.
Proof.
  unfold new_input, dict_copy.
  destruct (h !! r_attrs self) as [d|] eqn:Hl.
  - destruct (r_class self); simpl;
      (erewrite bind_Some
         by (erewrite bind_Some by (apply load_Some, Hl); reflexivity));
      reflexivity.
  - destruct (r_class self); simpl;
      (erewrite bind_None
         by (erewrite bind_None by (apply load_None, Hl); reflexivity));
      reflexivity.
Qed.

Lemma touches_only_lookup (l' l : loc) (h h' : heap) :
  touches_only l' h h' → l ≠ l' → h' !! l = h !! l.
Proof.
  intros [->|[d ->]] Hne; [done|]. by rewrite lookup_insert_ne.
Qed.

(** A loop over the renderer leaves every dictionary that existed before
    it as it was, whatever the body does to the input it is handed. *)
Lemma iter_from_frame {A} (self : Renderer) (body : ChoiceInput → M A) :
  (∀ (w : ChoiceInput) (h : heap), touches_only (ci_attrs w) h (body w h).2) →
  ∀ (choices : list (pyval * pyval)) (i : nat) (h : heap) (l : loc),
    is_Some (h !! l) → (iter_from self i choices body h).2 !! l = h !! l.
Proof.
  intros Hbody choices. induction choices as [|c cs IH]; intros i h l Hl; [done|].
  cbn [iter_from]. unfold bind at 1. rewrite new_input_run.
  destruct (h !! r_attrs self) as [d|]; [|done]. cbn zeta.
  assert (l ≠ fresh (dom h)) as Hne.
  { intros ->. rewrite fresh_unused in Hl. by destruct Hl. }
  destruct (input_class_of (r_class self)) as [cic|]; simpl;
    [|by rewrite lookup_insert_ne].
  set (w := RadioChoiceInput_init cic _ _ _ _ _).
  set (h1 := <[fresh (dom h) := d]> h).
  assert (h1 !! l = h !! l) as H1 by (unfold h1; by rewrite lookup_insert_ne).
  pose proof (Hbody w h1) as Ht. unfold bind at 1.
  destruct (body w h1) as [[x|] h2]; simpl in Ht;
    apply (touches_only_lookup _ l) in Ht; try done;
    [|simpl; congruence].
  assert (is_Some (h2 !! l)) as Hl2 by (rewrite Ht, H1; done).
  specialize (IH (S i) h2 l Hl2). unfold bind.
  destruct (iter_from self (S i) cs body h2) as [[xs|] h3]; simpl in *; congruence.
Qed.

(** ** AdminRadioFieldRenderer.render *)

Lemma py_str_force_text (v : pyval) : py_str (force_text v) = py_str v.
Proof. by destruct v. Qed.

Lemma str_of_new_admin_input (name value : pyval) (d : dict)
    (choice : pyval * pyval) (i : Z) (l : loc) :
  str_of_new_input AdminRadioInput name value d choice i =
    (λ cls, radio_markup (RadioChoiceInput_init AdminRadioInput name value l choice i)
              d (<["class" := cls]> d))
      <$> cleaned_class d.
Proof.
  unfold str_of_new_input. rewrite AdminRadioInput_str_run by done.
  simpl. rewrite lookup_singleton_eq. by destruct (cleaned_class d).
Qed.

Lemma enumerate_from_cons {A} (i : nat) (x : A) (l : list A) :
  enumerate_from i (x :: l) = (i, x) :: enumerate_from (S i) l.
Proof.
  unfold enumerate_from. cbn [imap]. rewrite Nat.add_0_r. f_equal.
  apply imap_ext. intros j y _. simpl. f_equal. lia.
Qed.

Lemma iter_from_admin (self : Renderer) (d : dict) (choices : list (pyval * pyval)) :
  r_class self = AdminRadioFieldRenderer →
  ∀ (i : nat) (h : heap),
    h !! r_attrs self = Some d →
    (iter_from self i choices
       (λ w, do s <- ChoiceInput_str w; ret (py_str (force_unicode s))) h).1 =
      mapM (λ ic : nat * (pyval * pyval),
              py_str <$> str_of_new_input AdminRadioInput (r_name self) (r_value self)
                           d ic.2 (Z.of_nat ic.1))
        (enumerate_from i choices).
Proof.
  intros Hc. induction choices as [|c cs IH]; intros i h Hd; [done|].
  rewrite enumerate_from_cons. cbn [iter_from mapM]. unfold bind at 1.
  rewrite new_input_run, Hd, Hc. cbn zeta. simpl input_class_of. simpl fmap at 1.
  set (l := fresh (dom h)).
  assert (r_attrs self ≠ l) as Hne.
  { intros Heq. pose proof (fresh_unused h) as Hf. fold l in Hf. congruence. }
  rewrite (str_of_new_admin_input _ _ _ _ _ l). simpl fst; simpl snd.
  unfold bind at 1. unfold bind at 1.
  rewrite AdminRadioInput_str_run by done. simpl ci_attrs.
  rewrite lookup_insert_eq.
  destruct (cleaned_class d) as [cls|]; [|done].
  cbn [fmap option_fmap option_map].
  set (markup := radio_markup _ _ _). clearbody markup.
  simpl. unfold bind at 1.
  match goal with |- context [iter_from self (S i) cs ?b ?h2] =>
    specialize (IH (S i) h2); destruct (iter_from self (S i) cs b h2) as [[xs|] h3]
  end; simpl in *.
  - rewrite <- IH by (by rewrite !lookup_insert_ne).
    unfold force_unicode. by rewrite py_str_force_text.
  - rewrite <- IH by (by rewrite !lookup_insert_ne). done.
Qed.

(** ** Escaping *)

Lemma occurs_app (c : ascii) (a b : string) :
  occurs c (a +:+ b) = occurs c a || occurs c b.
Proof.
  induction a as [|x a IH]; [done|].
  change (occurs c (String x (a +:+ b)) = occurs c (String x a) || occurs c b).
  simpl. rewrite IH. by destruct (bool_decide (x = c)).
Qed.

Lemma prefix_empty (s : string) : String.prefix EmptyString s = true.
Proof. by destruct s. Qed.

(** Replacing one character: what occurs in the result occurs in the
    replacement or is another character of the text. *)
Lemma replace_char_occurs (c x : ascii) (new s : string) :
  occurs x (replace (String c EmptyString) new s) = true →
  occurs x new = true ∨ (occurs x s = true ∧ x ≠ c).
Proof.
  unfold replace. induction s as [|y s IH]; [done|].
  cbn [replace_from String.prefix String.length Nat.sub].
  destruct (ascii_dec c y) as [->|Hne].
  - rewrite prefix_empty, occurs_app. intros [Hn|Hr]%orb_true_iff; [by left|].
    destruct (IH Hr) as [?|[? ?]]; [by left|right].
    split; [|done]. simpl. by apply orb_true_iff; right.
  - simpl. intros [Hy%bool_decide_eq_true|Hr]%orb_true_iff.
    + right. subst. split; [|done]. apply orb_true_iff. left.
      by apply bool_decide_eq_true.
    + destruct (IH Hr) as [?|[? ?]]; [by left|right].
      split; [|done]. by apply orb_true_iff; right.
Qed.

Ltac peel_replace H :=
  apply replace_char_occurs in H as [H|[H ?]];
  [by vm_compute in H|try done].

(** The text [escape] returns holds none of the angle brackets and
    neither quote. *)
Lemma escape_clean (text : string) :
  occurs "<" (escape text) = false ∧
  occurs ">" (escape text) = false ∧
  occurs "034" (escape text) = false ∧
  occurs "'" (escape text) = false.
Proof.
  unfold escape, dq.
  split_and!; apply not_true_is_false; intros Ho; repeat peel_replace Ho.
Qed.

(** ** Layout and labels *)

Lemma AdminRadioInput_render_markup (self : ChoiceInput) (attrs : option loc)
    (h : heap) (la : loc) (da : dict) :
  or_attrs attrs (ci_attrs self) h = (Some la, h) →
  h !! la = Some da →
  is_Some (cleaned_class da) →
  is_Some (h !! ci_attrs self) →
  ∃ ds : dict,
    (AdminRadioInput_render self attrs h).1 = Some (radio_markup self da ds).
Proof.
  intros Hor Hla [cls Hcls] [d0 Hself].
  assert (∃ ds, <[la := <["class" := cls]> da]> h !! ci_attrs self = Some ds)
    as [ds Hds].
  { destruct (decide (la = ci_attrs self)) as [->|Hne].
    - rewrite lookup_insert_eq. eauto.
    - rewrite lookup_insert_ne by done. eauto. }
  exists ds. by rewrite (AdminRadioInput_render_run _ _ _ _ _ _ _ Hor Hla Hcls Hds).
Qed.

Lemma option_attrs_inline (attrs : option dict) (base : dict) (i : nat) :
  dict_get (option_attrs attrs base i) "inline" (PBool false) =
    dict_get base "inline" (PBool false).
Proof.
  unfold option_attrs. destruct (has_id_of attrs); [|done].
  by apply dict_get_insert_ne.
Qed.

(** C4. An [AdminRadioInput] whose effective attrs hold a truthy inline
    entry renders as one label of class radio-inline, and otherwise as a
    label inside a div of class radio; every option of an
    [AdminCheckboxSelect] renders as one label of class checkbox-inline
    when the attrs built for the widget hold a truthy inline entry, and
    otherwise as a label inside a div of class checkbox. *)
Theorem inline_or_block_layout `{Framework} :
  (∀ (self : ChoiceInput) (attrs : option loc) (h : heap) (la : loc) (da : dict),
     or_attrs attrs (ci_attrs self) h = (Some la, h) →
     h !! la = Some da →
     is_Some (cleaned_class da) →
     is_Some (h !! ci_attrs self) →
     ∃ label_for t lbl : string,
       (AdminRadioInput_render self attrs h).1 =
         Some (mark_safe
                 ((if truthy (dict_get da "inline" (PBool false))
                   then radio_inline else radio_block) label_for t lbl))) ∧
  (∀ (self : Widget) (name : pyval) (value : option (list pyval))
     (attrs : option dict) (choices : list (pyval * pyval)),
     ∃ fragments : list string,
       AdminCheckboxSelect_render self name value attrs choices =
         mark_safe (join nl fragments) ∧
       length fragments = length (w_choices self ++ choices) ∧
       ∀ i : nat, (i < length fragments)%nat →
         ∃ label_for cb lbl : string,
           fragments !! i =
             Some ((if truthy (dict_get (build_attrs self attrs) "inline" (PBool false))
                    then checkbox_inline else checkbox_block) label_for cb lbl)) ∧
  (∀ label_for t lbl : string,
     radio_inline label_for t lbl =
       "<label" +:+ label_for +:+ " class=" +:+ dq +:+ "radio-inline" +:+ dq +:+ ">"
         +:+ t +:+ " " +:+ lbl +:+ "</label>" ∧
     radio_block label_for t lbl =
       "<div class=" +:+ dq +:+ "radio" +:+ dq +:+ "><label" +:+ label_for +:+ ">"
         +:+ t +:+ " " +:+ lbl +:+ "</label></div>" ∧
     checkbox_inline label_for t lbl =
       "<label" +:+ label_for +:+ " class=" +:+ dq +:+ "checkbox-inline" +:+ dq +:+ ">"
         +:+ t +:+ " " +:+ lbl +:+ "</label>" ∧
     checkbox_block label_for t lbl =
       "<div class=" +:+ dq +:+ "checkbox" +:+ dq +:+ "><label" +:+ label_for +:+ ">"
         +:+ t +:+ " " +:+ lbl +:+ "</label></div>").
Proof.
  split_and!.
  - intros self attrs h la da Hor Hla Hcls Hself.
    destruct (AdminRadioInput_render_markup _ _ _ _ _ Hor Hla Hcls Hself) as [ds ->].
    unfold radio_markup. eauto.
  - intros self name value attrs choices.
    eexists. split_and!; [apply checkbox_render_fragments|apply length_imap|].
    intros i Hi. rewrite length_imap in Hi.
    destruct (lookup_lt_is_Some_2 _ _ Hi) as [opt Hopt].
    rewrite list_lookup_imap, Hopt. unfold option_fragment.
    rewrite option_attrs_inline. simpl. eauto.
  - intros. split_and!; reflexivity.
Qed.

(** C4 at a radio input whose attrs ask for the inline layout. *)
Lemma inline_or_block_layout_witness :
  or_attrs None (ci_attrs (sample_input_obj AdminRadioInput)) (sample_heap inline_attrs)
    = (Some 1%positive, sample_heap inline_attrs) ∧
  sample_heap inline_attrs !! 1%positive = Some inline_attrs ∧
  ∃ label_for t lbl : string,
    (AdminRadioInput_render (sample_input_obj AdminRadioInput) None
       (sample_heap inline_attrs)).1 =
      Some (mark_safe (radio_inline label_for t lbl)).
Proof.
  split_and!; [reflexivity..|].
  apply (proj1 (@inline_or_block_layout sample_framework)
           (sample_input_obj AdminRadioInput) None (sample_heap inline_attrs)
           1%positive inline_attrs);
    [reflexivity | reflexivity | by eexists | by eexists].
Defined.



(** ** Rendering a renderer *)

Lemma mapM_total {A B} (f : A → option B) (g : A → B) (l : list A) :
  (∀ x, f x = Some (g x)) → mapM f l = Some (g <$> l).
Proof.
  intros Hf. induction l as [|x l IH]; [done|].
  cbn [mapM]. rewrite Hf, IH. done.
Qed.

Lemma enumerate_from_lookup {A} (i j : nat) (l : list A) :
  enumerate_from i l !! j = (λ x, ((i + j)%nat, x)) <$> l !! j.
Proof. unfold enumerate_from. by rewrite list_lookup_imap. Qed.

Lemma ChoiceInput_str_radio (w : ChoiceInput) :
  ci_class w = RadioChoiceInput → ChoiceInput_str w = ChoiceInput_render w None.
Proof. unfold ChoiceInput_str. by intros ->. Qed.

Lemma str_of_new_radio_input (name value : pyval) (d : dict)
    (choice : pyval * pyval) (i : Z) (l : loc) :
  str_of_new_input RadioChoiceInput name value d choice i =
    Some (base_markup (RadioChoiceInput_init RadioChoiceInput name value l choice i) d).
Proof.
  unfold str_of_new_input. rewrite ChoiceInput_str_radio by done.
  rewrite ChoiceInput_render_run. simpl ci_attrs. by rewrite lookup_singleton_eq.
Qed.

Lemma iter_from_radio (self : Renderer) (d : dict) (choices : list (pyval * pyval)) :
  r_class self = RadioFieldRenderer →
  ∀ (i : nat) (h : heap),
    h !! r_attrs self = Some d →
    (iter_from self i choices
       (λ widget, do s <- ChoiceInput_str widget;
                  ret (py_str (format_html li_format [force_text s]))) h).1 =
      Some ((λ ic : nat * (pyval * pyval),
               "<li>" +:+ py_str (base_markup
                                    (RadioChoiceInput_init RadioChoiceInput (r_name self)
                                       (r_value self) 1%positive ic.2 (Z.of_nat ic.1)) d)
                 +:+ "</li>")
              <$> enumerate_from i choices).
Proof.
  intros Hc. induction choices as [|c cs IH]; intros i h Hd; [done|].
  rewrite enumerate_from_cons. cbn [iter_from fmap list_fmap]. unfold bind at 1.
  rewrite new_input_run, Hd, Hc. cbn zeta. simpl input_class_of. simpl fmap at 1.
  set (l := fresh (dom h)).
  assert (r_attrs self ≠ l) as Hne.
  { intros Heq. pose proof (fresh_unused h) as Hf. fold l in Hf. congruence. }
  unfold bind at 1. unfold bind at 1. rewrite ChoiceInput_str_radio by done.
  rewrite ChoiceInput_render_run. simpl ci_attrs. rewrite lookup_insert_eq.
  cbn [fst snd]. unfold ret at 1. unfold bind at 1.
  match goal with |- context [iter_from self (S i) cs ?b ?h2] =>
    specialize (IH (S i) h2); destruct (iter_from self (S i) cs b h2) as [[xs|] h3]
  end; cbn [fst snd] in *.
  - rewrite !lookup_insert_ne in IH by done. specialize (IH Hd).
    injection IH as ->. reflexivity.
  - rewrite !lookup_insert_ne in IH by done. by specialize (IH Hd).
Qed.

Lemma admin_render_texts (self : Renderer) (h : heap) (d : dict) :
  h !! r_attrs self = Some d →
  r_class self = AdminRadioFieldRenderer →
  (Renderer_render self h).1 =
    (λ items, mark_safe (String.concat nl items))
      <$> input_texts AdminRadioInput self d.
Proof.
  intros Hd Hc. unfold Renderer_render. rewrite Hc.
  unfold AdminRadioFieldRenderer_render, Renderer_iter, input_texts.
  rewrite <- (iter_from_admin self d (r_choices self) Hc 0 h Hd).
  unfold bind. destruct (iter_from _ _ _ _ _) as [[items|] h']; [|done].
  simpl. by rewrite join_concat.
Qed.

(** C8. Rendering an [AdminRadioFieldRenderer] gives the newline-join of
    the texts of its inputs, one [AdminRadioInput] per choice in the order
    of the choices, input [i] (from 0) built from the renderer's name and
    value and a copy of its attrs; when the class attribute of the attrs
    can be cleaned, every input renders and the join is returned.  The
    [RadioFieldRenderer], which keeps the inherited [render], wraps the
    same sequence in list items between the ul tags. *)
Theorem admin_renderer_joins_inputs (self : Renderer) (h : heap) (d : dict) :
  let newline := String "010"%char EmptyString in
  h !! r_attrs self = Some d →
  (r_class self = AdminRadioFieldRenderer →
   (Renderer_render self h).1 =
     (λ items, mark_safe (String.concat newline items))
       <$> input_texts AdminRadioInput self d ∧
   (is_Some (cleaned_class d) →
    ∃ items : list string,
      (Renderer_render self h).1 = Some (mark_safe (String.concat newline items)) ∧
      length items = length (r_choices self) ∧
      ∀ (i : nat) (choice : pyval * pyval),
        r_choices self !! i = Some choice →
        ∃ s : pyval,
          str_of_new_input AdminRadioInput (r_name self) (r_value self) d
            choice (Z.of_nat i) = Some s ∧
          items !! i = Some (py_str s))) ∧
  (r_class self = RadioFieldRenderer →
   ∃ (start_tag : string) (items : list string),
     (Renderer_render self h).1 =
       Some (mark_safe (String.concat newline ([start_tag] ++ items ++ ["</ul>"]))) ∧
     String.prefix "<ul" start_tag = true ∧
     length items = length (r_choices self) ∧
     ∀ (i : nat) (choice : pyval * pyval),
       r_choices self !! i = Some choice →
       ∃ s : pyval,
         str_of_new_input RadioChoiceInput (r_name self) (r_value self) d
           choice (Z.of_nat i) = Some s ∧
         items !! i = Some ("<li>" +:+ py_str s +:+ "</li>")).
Proof.
  intros newline Hd. split.
  - intros Hc. pose proof (admin_render_texts self h d Hd Hc) as Heq.
    split; [done|]. intros [cls Hcls]. rewrite Heq. unfold input_texts.
    rewrite (mapM_total _
               (λ ic, py_str (radio_markup
                                (RadioChoiceInput_init AdminRadioInput (r_name self)
                                   (r_value self) 1%positive ic.2 (Z.of_nat ic.1))
                                d (<["class" := cls]> d)))).
    2:{ intros ic. rewrite (str_of_new_admin_input _ _ _ _ _ 1%positive), Hcls. done. }
    eexists. split_and!; [reflexivity| |].
    + unfold enumerate_from. by rewrite length_fmap, length_imap.
    + intros i choice Hi.
      rewrite list_lookup_fmap, enumerate_from_lookup, Hi.
      rewrite (str_of_new_admin_input _ _ _ _ _ 1%positive), Hcls.
      eexists. split; reflexivity.
  - intros Hc. unfold Renderer_render. rewrite Hc.
    unfold ChoiceFieldRenderer_render, Renderer_iter.
    rewrite (bind_Some _ _ _ _ _ (load_Some _ _ _ Hd)).
    pose proof (iter_from_radio self d (r_choices self) Hc 0 h Hd) as Hit.
    unfold bind. destruct (iter_from _ _ _ _ _) as [[items|] h']; [|done].
    simpl in Hit. injection Hit as ->.
    eexists _, _. split_and!; [cbn [fst ret]; rewrite join_concat; reflexivity| | |].
    + by destruct (truthy _).
    + unfold enumerate_from. by rewrite length_fmap, length_imap.
    + intros i choice Hi.
      rewrite list_lookup_fmap, enumerate_from_lookup, Hi.
      rewrite (str_of_new_radio_input _ _ _ _ _ 1%positive).
      eexists. split; reflexivity.
Qed.

(** C8 at the sample renderer with two choices: the two radio blocks
    with one newline between them. *)
Lemma admin_renderer_joins_inputs_witness :
  let q := String "034"%char EmptyString in
  let newline := String "010"%char EmptyString in
  sample_heap id_attrs !! r_attrs (sample_renderer AdminRadioFieldRenderer)
    = Some id_attrs ∧
  (Renderer_render (sample_renderer AdminRadioFieldRenderer) (sample_heap id_attrs)).1 =
    (λ items, mark_safe (String.concat newline items))
      <$> input_texts AdminRadioInput (sample_renderer AdminRadioFieldRenderer) id_attrs ∧
  input_texts AdminRadioInput (sample_renderer AdminRadioFieldRenderer) id_attrs =
    Some [ "<div class=" +:+ q +:+ "radio" +:+ q +:+ "><label for=" +:+ q
             +:+ "id_color_0" +:+ q +:+ "><input class=" +:+ q +:+ q +:+ " id=" +:+ q
             +:+ "id_color_0" +:+ q +:+ " name=" +:+ q +:+ "color" +:+ q +:+ " type="
             +:+ q +:+ "radio" +:+ q +:+ " value=" +:+ q +:+ "r" +:+ q
             +:+ " /> R&amp;B</label></div>";
           "<div class=" +:+ q +:+ "radio" +:+ q +:+ "><label for=" +:+ q
             +:+ "id_color_1" +:+ q +:+ "><input checked=" +:+ q +:+ "checked" +:+ q
             +:+ " class=" +:+ q +:+ q +:+ " id=" +:+ q
             +:+ "id_color_1" +:+ q +:+ " name=" +:+ q +:+ "color" +:+ q +:+ " type="
             +:+ q +:+ "radio" +:+ q +:+ " value=" +:+ q +:+ "g" +:+ q
             +:+ " /> <b>G</b></label></div>" ].
Proof.
  intros q newline. split_and!; [reflexivity| |by vm_compute].
  apply (proj1 (admin_renderer_joins_inputs (sample_renderer AdminRadioFieldRenderer)
                  (sample_heap id_attrs) id_attrs eq_refl) eq_refl).
Defined.

(** ** The renderer's attrs are left alone *)

Lemma iter_from_unallocated {A} (self : Renderer) (body : ChoiceInput → M A)
    (choices : list (pyval * pyval)) (i : nat) (h : heap) :
  h !! r_attrs self = None → (iter_from self i choices body h).2 = h.
Proof.
  intros Hd. destruct choices as [|c cs]; [done|].
  cbn [iter_from]. unfold bind at 1. by rewrite new_input_run, Hd.
Qed.

Lemma str_body_touches {A} (f : pyval → A) (w : ChoiceInput) (h : heap) :
  touches_only (ci_attrs w) h
    ((do s <- ChoiceInput_str w; ret (f s)) h).2.
Proof.
  pose proof (ChoiceInput_str_touches w h) as Ht. unfold bind.
  by destruct (ChoiceInput_str w h) as [[s|] h'].
Qed.

Lemma Renderer_render_frame (self : Renderer) (h : heap) (l : loc) :
  is_Some (h !! l) → (Renderer_render self h).2 !! l = h !! l.
Proof.
  intros Hl. unfold Renderer_render.
  assert (∀ A (f : pyval → A) (g : list A → pyval),
            ((do items <- Renderer_iter self
                            (λ w, do s <- ChoiceInput_str w; ret (f s));
              ret (g items)) h).2 !! l = h !! l) as Hloop.
  { intros A f g. unfold Renderer_iter.
    pose proof (iter_from_frame self _ (str_body_touches f) (r_choices self) 0 h l Hl)
      as Hf.
    unfold bind at 1. by destruct (iter_from _ _ _ _ _) as [[items|] h']. }
  assert ((ChoiceFieldRenderer_render self h).2 !! l = h !! l) as Hbase.
  { unfold ChoiceFieldRenderer_render. unfold bind at 1. unfold load at 1.
    destruct (h !! r_attrs self) as [d|]; [|done]. apply Hloop. }
  destruct (r_class self); try done.
  unfold AdminRadioFieldRenderer_render. apply Hloop.
Qed.

(** C9. Rendering a renderer of any class leaves its attrs dictionary,
    and every dictionary that existed before, as it was; so does taking
    an item by index and rendering it.  Every input a renderer builds
    holds a new dictionary with the contents of the renderer's attrs, and
    [tag] writes the indexed id into that copy. *)
Theorem renderer_attrs_unchanged (self : Renderer) (h : heap) :
  (Renderer_render self h).2 !! r_attrs self = h !! r_attrs self ∧
  (∀ l : loc, is_Some (h !! l) → (Renderer_render self h).2 !! l = h !! l) ∧
  (∀ (idx : Z) (l : loc),
     is_Some (h !! l) →
     ((do w <- Renderer_getitem self idx; ChoiceInput_str w) h).2 !! l = h !! l) ∧
  (∀ (choice : pyval * pyval) (i : Z) (w : ChoiceInput) (h' : heap),
     new_input self choice i h = (Some w, h') →
     ci_attrs w ≠ r_attrs self ∧
     h !! ci_attrs w = None ∧
     h' !! ci_attrs w = h !! r_attrs self ∧
     h' !! r_attrs self = h !! r_attrs self ∧
     ∀ (d : dict) (idv : pyval),
       h !! r_attrs self = Some d → d !! "id" = Some idv →
       (tag w h').2 !! ci_attrs w =
         Some (<["id" := PStr (indexed_id idv i)]> d) ∧
       (tag w h').2 !! r_attrs self = Some d).
Proof.
  split_and!.
  - destruct (h !! r_attrs self) as [d|] eqn:Hd.
    + rewrite <- Hd. apply Renderer_render_frame. by rewrite Hd.
    + assert ((Renderer_render self h).2 = h) as ->; [|done].
      unfold Renderer_render, AdminRadioFieldRenderer_render,
        ChoiceFieldRenderer_render, Renderer_iter.
      destruct (r_class self).
      * by rewrite (bind_None _ _ _ _ (load_None _ _ Hd)).
      * by rewrite (bind_None _ _ _ _ (load_None _ _ Hd)).
      * pose proof (iter_from_unallocated self
                      (λ w, do s <- ChoiceInput_str w; ret (py_str (force_unicode s)))
                      (r_choices self) 0 h Hd) as Hu.
        unfold bind at 1. by destruct (iter_from _ _ _ _ _) as [[items|] h'].
  - intros l. apply Renderer_render_frame.
  - intros idx l Hl. unfold Renderer_getitem, lift. unfold bind at 1. unfold bind at 1.
    destruct (py_index (r_choices self) idx) as [choice|]; [|done].
    rewrite new_input_run. destruct (h !! r_attrs self) as [d|]; [|done].
    assert (l ≠ fresh (dom h)) as Hne.
    { intros ->. rewrite fresh_unused in Hl. by destruct Hl. }
    cbn zeta. destruct (input_class_of (r_class self)) as [cic|];
      simpl; [|by rewrite lookup_insert_ne].
    match goal with |- (ChoiceInput_str ?w ?h1).2 !! _ = _ =>
      rewrite (touches_only_lookup _ l _ _ (ChoiceInput_str_touches w h1)) by done
    end.
    by rewrite lookup_insert_ne.
  - intros choice i w h'. rewrite new_input_run.
    destruct (h !! r_attrs self) as [d|] eqn:Hd; [|done]. cbn zeta.
    destruct (input_class_of (r_class self)) as [cic|]; [|done].
    simpl. intros [= <- <-]. simpl ci_attrs.
    pose proof (fresh_unused h) as Hf.
    assert (fresh (dom h) ≠ r_attrs self) as Hne by congruence.
    split_and!; [done | done | by rewrite lookup_insert_eq
                | by rewrite lookup_insert_ne |].
    intros d' idv [= <-] Hid. rewrite tag_run. simpl ci_attrs.
    rewrite lookup_insert_eq. cbn [snd].
    rewrite lookup_insert_eq, !lookup_insert_ne by done.
    unfold tag_attrs. rewrite Hid. done.
Qed.

(** C9 at the sample renderers: after a full render the attrs at
    location 1 still hold the id as it was given. *)
Lemma renderer_attrs_unchanged_witness :
  (Renderer_render (sample_renderer AdminRadioFieldRenderer) (sample_heap id_attrs)).2
    !! 1%positive = Some id_attrs ∧
  (Renderer_render (sample_renderer RadioFieldRenderer) (sample_heap id_attrs)).2
    !! 1%positive = Some id_attrs.
Proof.
  split.
  - apply (proj1 (renderer_attrs_unchanged (sample_renderer AdminRadioFieldRenderer)
                    (sample_heap id_attrs))).
  - apply (proj1 (renderer_attrs_unchanged (sample_renderer RadioFieldRenderer)
                    (sample_heap id_attrs))).
Defined.


(** ** Evaluations *)

Example flatatt_sample :
  flatatt (<["id" := PStr "x"]> (<["class" := PSafe "a b"]> (<["size" := PInt 10]> ∅))) =
    mark_safe (" class=" +:+ quoted "a b" +:+ " id=" +:+ quoted "x"
                 +:+ " size=" +:+ quoted "10").
Proof. vm_compute. reflexivity. Qed.

Example escape_sample :
  escape ("<a href=" +:+ quoted "x" +:+ ">R&B</a>") =
    "&lt;a href=&quot;x&quot;&gt;R&amp;B&lt;/a&gt;".
Proof. vm_compute. reflexivity. Qed.

Example replace_sample :
  replace "form-control" EmptyString "form-control wide form-control" = " wide ".
Proof. vm_compute. reflexivity. Qed.

Example get_context_dict_sample :
  get_context_dict
    (RequestContext [ <["a" := PInt 1]> (<["b" := PInt 2]> ∅); {["b" := PInt 3]} ]) =
    Dict (<["a" := PInt 1]> (<["b" := PInt 3]> ∅)).
Proof. vm_compute. reflexivity. Qed.

Example admin_renderer_sample :
  let q := String "034"%char EmptyString in
  let newline := String "010"%char EmptyString in
  (Renderer_render (sample_renderer AdminRadioFieldRenderer) (sample_heap id_attrs)).1 =
    Some (mark_safe
      ("<div class=" +:+ q +:+ "radio" +:+ q +:+ "><label for=" +:+ q
         +:+ "id_color_0" +:+ q +:+ "><input class=" +:+ q +:+ q +:+ " id=" +:+ q
         +:+ "id_color_0" +:+ q +:+ " name=" +:+ q +:+ "color" +:+ q +:+ " type="
         +:+ q +:+ "radio" +:+ q +:+ " value=" +:+ q +:+ "r" +:+ q
         +:+ " /> R&amp;B</label></div>" +:+ newline
         +:+ "<div class=" +:+ q +:+ "radio" +:+ q +:+ "><label for=" +:+ q
         +:+ "id_color_1" +:+ q +:+ "><input checked=" +:+ q +:+ "checked" +:+ q
         +:+ " class=" +:+ q +:+ q +:+ " id=" +:+ q
         +:+ "id_color_1" +:+ q +:+ " name=" +:+ q +:+ "color" +:+ q +:+ " type="
         +:+ q +:+ "radio" +:+ q +:+ " value=" +:+ q +:+ "g" +:+ q
         +:+ " /> <b>G</b></label></div>")).
Proof. vm_compute. reflexivity. Qed.

Example radio_renderer_sample :
  let q := String "034"%char EmptyString in
  let newline := String "010"%char EmptyString in
  (Renderer_render (sample_renderer RadioFieldRenderer) (sample_heap id_attrs)).1 =
    Some (mark_safe
      ("<ul id=" +:+ q +:+ "id_color" +:+ q +:+ ">" +:+ newline
         +:+ "<li><label for=" +:+ q +:+ "id_color_0" +:+ q +:+ "><input id="
         +:+ q +:+ "id_color_0" +:+ q +:+ " name=" +:+ q +:+ "color" +:+ q
         +:+ " type=" +:+ q +:+ "radio" +:+ q +:+ " value=" +:+ q +:+ "r" +:+ q
         +:+ " /> R&amp;B</label></li>" +:+ newline
         +:+ "<li><label for=" +:+ q +:+ "id_color_1" +:+ q +:+ "><input checked="
         +:+ q +:+ "checked" +:+ q +:+ " id=" +:+ q +:+ "id_color_1" +:+ q
         +:+ " name=" +:+ q +:+ "color" +:+ q +:+ " type=" +:+ q +:+ "radio" +:+ q
         +:+ " value=" +:+ q +:+ "g" +:+ q +:+ " /> <b>G</b></label></li>" +:+ newline
         +:+ "</ul>")).
Proof. vm_compute. reflexivity. Qed.

(** With Django's checkbox input an inline entry that is [True] is
    written as a bare attribute after the others. *)
Example checkbox_select_sample :
  let q := String "034"%char EmptyString in
  let newline := String "010"%char EmptyString in
  @AdminCheckboxSelect_render sample_framework (Widget_init None None) (PStr "tags")
    (Some [PInt 2]) (Some inline_attrs)
    [(PInt 1, PStr "a<b"); (PInt 2, PSafe "<i>two</i>")] =
    mark_safe
      ("<label class=" +:+ q +:+ "checkbox-inline" +:+ q +:+ "><input name=" +:+ q
         +:+ "tags" +:+ q +:+ " type=" +:+ q +:+ "checkbox" +:+ q +:+ " value=" +:+ q
         +:+ "1" +:+ q +:+ " inline /> a&lt;b</label>" +:+ newline
         +:+ "<label class=" +:+ q +:+ "checkbox-inline" +:+ q +:+ "><input checked="
         +:+ q +:+ "checked" +:+ q +:+ " name=" +:+ q +:+ "tags" +:+ q +:+ " type="
         +:+ q +:+ "checkbox" +:+ q +:+ " value=" +:+ q +:+ "2" +:+ q
         +:+ " inline /> <i>two</i></label>").
Proof. vm_compute. reflexivity. Qed.

(** With Django's base constructors: the date widget stores what it was
    handed, the text input takes a type out of the attrs, and the textarea
    adds its columns and rows. *)
Example admin_date_widget_sample :
  w_attrs (@AdminDateWidget_init sample_framework (Some {["size" := PStr "12"]}) None) =
    <["class" := PStr "date-field"]> (<["size" := PStr "12"]> ∅).
Proof. vm_compute. reflexivity. Qed.

Example admin_text_input_sample :
  let w := @AdminTextInputWidget_init sample_framework
             (Some {["type" := PStr "email"]}) in
  w_attrs w = {["class" := PStr "text-field"]} ∧ w_input_type w = PStr "email".
Proof. split; vm_compute; reflexivity. Qed.

Example admin_textarea_sample :
  w_attrs (@AdminTextareaWidget_init sample_framework None) =
    <["class" := PStr "textarea-field"]>
      (<["cols" := PStr "40"]> (<["rows" := PStr "10"]> ∅)).
Proof. vm_compute. reflexivity. Qed.

(** With Django's date input a value of [None] writes no value
    attribute. *)
Example admin_date_render_sample :
  let q := String "034"%char EmptyString in
  @AdminDateWidget_render sample_framework
    (@AdminDateWidget_init sample_framework None None) (PStr "day") PNone None =
    mark_safe
      ("<div class=" +:+ q +:+ "input-group date bootstrap-datepicker" +:+ q
         +:+ "><span class=" +:+ q +:+ "input-group-addon" +:+ q
         +:+ "><i class=" +:+ q +:+ "fa fa-calendar" +:+ q +:+ "></i></span>"
         +:+ "<input class=" +:+ q +:+ "date-field" +:+ q +:+ " name=" +:+ q +:+ "day"
         +:+ q +:+ " size=" +:+ q +:+ "10" +:+ q +:+ " type=" +:+ q +:+ "text" +:+ q
         +:+ " />"
         +:+ "<span class=" +:+ q +:+ "input-group-btn" +:+ q
         +:+ "><button class=" +:+ q +:+ "btn btn-default" +:+ q
         +:+ " type=" +:+ q +:+ "button" +:+ q +:+ ">Today</button></span></div>").
Proof. vm_compute. reflexivity. Qed.


(** * Further properties of the code *)

(** ** get_context_dict: how flattening composes *)

Lemma last_scope_value_app (k : string) (ds1 ds2 : list dict) :
  last_scope_value k (ds1 ++ ds2) =
    match last_scope_value k ds2 with
    | Some v => Some v
    | None => last_scope_value k ds1
    end.
Proof.
  induction ds1 as [|d ds1 IH]; simpl.
  - by destruct (last_scope_value k ds2).
  - rewrite IH. by destruct (last_scope_value k ds2), (last_scope_value k ds1).
Qed.

Lemma flatten_empty_acc (dicts : list dict) (k : string) :
  foldl copy_scope ∅ dicts !! k = last_scope_value k dicts.
Proof.
  rewrite flatten_lookup, lookup_empty. by destruct (last_scope_value k dicts).
Qed.

(** X1. Flattening a stack of scopes that is the concatenation of two
    stacks gives the flattened second stack laid over the flattened first
    one; a stack of one scope flattens to that scope, and pushing a scope
    lays it over what was there. *)
Theorem get_context_dict_app (ds1 ds2 : list dict) :
  (∃ f1 f2 : dict,
     get_context_dict (RequestContext ds1) = Dict f1 ∧
     get_context_dict (RequestContext ds2) = Dict f2 ∧
     get_context_dict (RequestContext (ds1 ++ ds2)) = Dict (f2 ∪ f1)) ∧
  (∀ d : dict, get_context_dict (RequestContext [d]) = Dict d) ∧
  (∀ (d f1 : dict),
     get_context_dict (RequestContext ds1) = Dict f1 →
     get_context_dict (RequestContext (ds1 ++ [d])) = Dict (d ∪ f1)).
Proof.
  assert (∀ d : dict, foldl copy_scope ∅ [d] = d) as Hone.
  { intros d. apply map_eq. intros k. rewrite flatten_empty_acc. simpl.
    by destruct (d !! k). }
  assert (∀ a b : list dict,
            foldl copy_scope ∅ (a ++ b) =
              foldl copy_scope ∅ b ∪ foldl copy_scope ∅ a) as Happ.
  { intros a b. apply map_eq. intros k.
    rewrite lookup_union, !flatten_empty_acc, last_scope_value_app.
    by destruct (last_scope_value k b), (last_scope_value k a). }
  split_and!.
  - eexists _, _. split_and!; [reflexivity..|]. simpl. by rewrite Happ.
  - intros d. simpl. f_equal. apply (Hone d).
  - intros d f1 [= <-]. cbn [get_context_dict]. by rewrite Happ, Hone.
Qed.

(** X1 at a scope that holds a and b with a later scope that holds b
    again: the later value of b is the one kept. *)
Lemma get_context_dict_app_witness :
  get_context_dict
    (RequestContext ([<["a" := PInt 1]> {["b" := PInt 2]}] ++ [{["b" := PInt 3]}])) =
    Dict ({["b" := PInt 3]} ∪ <["a" := PInt 1]> {["b" := PInt 2]}) ∧
  ({["b" := PInt 3]} ∪ <["a" := PInt 1]> {["b" := PInt 2]} : dict) !! "b" =
    Some (PInt 3).
Proof.
  split; [|reflexivity].
  apply (proj2 (proj2 (get_context_dict_app [<["a" := PInt 1]> {["b" := PInt 2]}] []))
           {["b" := PInt 3]} (<["a" := PInt 1]> {["b" := PInt 2]})).
  apply (proj1 (proj2 (get_context_dict_app [] []))).
Defined.

(** ** flatatt: when it is empty, what it never writes, how it grows *)

Lemma concat_str_app (l1 l2 : list string) :
  concat_str (l1 ++ l2) = concat_str l1 +:+ concat_str l2.
Proof.
  induction l1 as [|x l1 IH]; [done|].
  simpl. rewrite IH. by rewrite app_assoc_str.
Qed.

Lemma sorted_items_length (attrs : dict) :
  length (sorted_items attrs) = size attrs.
Proof.
  unfold sorted_items. rewrite merge_sort_Permutation. apply length_map_to_list.
Qed.

Lemma sorted_items_elem (attrs : dict) (kv : string * pyval) :
  kv ∈ sorted_items attrs ↔ attrs !! kv.1 = Some kv.2.
Proof.
  unfold sorted_items. rewrite merge_sort_Permutation.
  destruct kv as [k v]. apply elem_of_map_to_list.
Qed.

(** X2. [flatatt] returns the empty string for the empty dictionary only:
    every entry contributes a fragment that starts with a space. *)
Theorem flatatt_empty_iff (attrs : dict) :
  py_str (flatatt attrs) = EmptyString ↔ attrs = ∅.
Proof.
  split; [|by intros ->].
  rewrite flatatt_fragments. simpl. intros Hempty.
  apply map_size_empty_iff. rewrite <- sorted_items_length.
  destruct (sorted_items attrs) as [|kv l]; [done|].
  simpl in Hempty. discriminate Hempty.
Qed.

Lemma occurs_count_zero (c : ascii) (s : string) :
  occurs c s = false → count_char c s = 0%nat.
Proof.
  induction s as [|x s IH]; [done|]. simpl.
  destruct (bool_decide (x = c)); [done|]. simpl. apply IH.
Qed.

Lemma count_char_app (c : ascii) (a b : string) :
  count_char c (a +:+ b) = (count_char c a + count_char c b)%nat.
Proof.
  induction a as [|x a IH]; [done|].
  change (count_char c (String x (a +:+ b)) =
            (count_char c (String x a) + count_char c b)%nat).
  simpl. rewrite IH. lia.
Qed.

Lemma escaped_not_safe (v : pyval) :
  is_safe v = false → escaped v = escape (py_str v).
Proof. by destruct v. Qed.

Lemma flatatt_of_fragments (key_obj : string → pyval) (attrs : dict) :
  flatatt_of key_obj attrs =
    mark_safe (concat_str (keyed_fragment key_obj <$> sorted_items attrs)).
Proof.
  unfold flatatt_of, format_html_join. f_equal.
  change (py_str (conditional_escape (PStr EmptyString))) with EmptyString.
  rewrite join_empty_sep. f_equal.
  rewrite <- list_fmap_compose. apply list_fmap_ext. by intros _ [k v] _.
Qed.

Lemma keyed_fragment_clean (key_obj : string → pyval) (kv : string * pyval) :
  is_safe (key_obj kv.1) = false →
  is_safe kv.2 = false →
  occurs "<" (keyed_fragment key_obj kv) = false ∧
  occurs ">" (keyed_fragment key_obj kv) = false ∧
  occurs "'" (keyed_fragment key_obj kv) = false ∧
  count_char "034" (keyed_fragment key_obj kv) = 2%nat.
Proof.
  intros Hk Hv. unfold keyed_fragment.
  rewrite (escaped_not_safe _ Hk), (escaped_not_safe _ Hv).
  destruct (escape_clean (py_str (key_obj kv.1))) as (Hk1 & Hk2 & Hk3 & Hk4).
  destruct (escape_clean (py_str kv.2)) as (Hv1 & Hv2 & Hv3 & Hv4).
  rewrite !occurs_app, !count_char_app, Hk1, Hk2, Hk4, Hv1, Hv2, Hv4.
  rewrite (occurs_count_zero _ _ Hk3), (occurs_count_zero _ _ Hv3).
  done.
Qed.

(** X3. [flatatt] is [flatatt_of] for keys that are plain strings.  When
    no key and no value of the dictionary is marked safe, the text
    returned holds no angle bracket and no single quote, and its double
    quotes are the two that delimit each value and no other: a key or a
    value cannot close its attribute or open a tag. *)
Theorem flatatt_no_markup_from_values (key_obj : string → pyval) (attrs : dict) :
  flatatt attrs = flatatt_of PStr attrs ∧
  ((∀ (k : string) (v : pyval),
      attrs !! k = Some v → is_safe (key_obj k) = false ∧ is_safe v = false) →
   occurs "<" (py_str (flatatt_of key_obj attrs)) = false ∧
   occurs ">" (py_str (flatatt_of key_obj attrs)) = false ∧
   occurs "'" (py_str (flatatt_of key_obj attrs)) = false ∧
   count_char "034" (py_str (flatatt_of key_obj attrs)) = (2 * size attrs)%nat).
Proof.
  split; [reflexivity|].
  intros Hunsafe. rewrite flatatt_of_fragments, <- sorted_items_length. simpl.
  assert (Forall (λ kv : string * pyval,
                    is_safe (key_obj kv.1) = false ∧ is_safe kv.2 = false)
            (sorted_items attrs)) as Hall.
  { apply Forall_forall. intros kv Hkv%sorted_items_elem. eauto. }
  induction Hall as [|kv l [Hk Hv] _ IH]; [done|].
  destruct (keyed_fragment_clean key_obj kv Hk Hv) as (H1 & H2 & H3 & H4).
  destruct IH as (I1 & I2 & I3 & I4).
  cbn [fmap list_fmap concat_str foldr length].
  fold (concat_str (keyed_fragment key_obj <$> l)).
  rewrite !occurs_app, count_char_app, H1, H2, H3, H4, I1, I2, I3, I4.
  split_and!; [done..|lia].
Qed.

(** X3 at a key and a value that both try to close the attribute and open
    a tag. *)
Lemma flatatt_no_markup_from_values_witness :
  let attrs : dict :=
    {[String "034"%char "><b" := PStr (String "034"%char "><script>")]} in
  occurs "<" (py_str (flatatt_of PStr attrs)) = false ∧
  occurs ">" (py_str (flatatt_of PStr attrs)) = false ∧
  occurs "'" (py_str (flatatt_of PStr attrs)) = false ∧
  count_char "034" (py_str (flatatt_of PStr attrs)) = (2 * size attrs)%nat.
Proof.
  intros attrs. apply (proj2 (flatatt_no_markup_from_values PStr attrs)).
  intros k v. unfold attrs. rewrite lookup_singleton_Some. by intros [_ <-].
Defined.

(** A key that is marked safe is written as it is. *)
Example flatatt_safe_key_sample :
  let q := String "034"%char EmptyString in
  py_str (flatatt_of PSafe {["a" +:+ q +:+ "<" := PStr "v"]}) =
    " a" +:+ q +:+ "<=" +:+ q +:+ "v" +:+ q.
Proof. vm_compute. reflexivity. Qed.

Lemma item_key_unique (l : list (string * pyval)) (x y : string * pyval) :
  NoDup l.*1 → x ∈ l → y ∈ l → x.1 = y.1 → x = y.
Proof.
  intros Hnd Hx Hy Heq. destruct x as [k v], y as [k' v']. simpl in Heq. subst k'.
  f_equal. revert Hx Hy. induction l as [|[k0 v0] l IH]; [by intros ?%elem_of_nil|].
  apply NoDup_cons in Hnd as [Hk0 Hnd]. rewrite !elem_of_cons.
  intros [Hx|Hx] [Hy|Hy]; simplify_eq; try done.
  - destruct Hk0. apply list_elem_of_fmap. eexists. split; [|eassumption]. done.
  - destruct Hk0. apply list_elem_of_fmap. eexists. split; [|eassumption]. done.
  - by apply IH.
Qed.

Lemma sorted_items_insert_last (attrs : dict) (k : string) (v : pyval) :
  attrs !! k = None →
  (∀ (k' : string) (v' : pyval), attrs !! k' = Some v' → String.le k' k) →
  sorted_items (<[k := v]> attrs) = sorted_items attrs ++ [(k, v)].
Proof.
  intros Hnew Hmax.
  destruct (sorted_items_spec (<[k := v]> attrs)) as (Hp1 & Hs1 & Hn1).
  destruct (sorted_items_spec attrs) as (Hp2 & Hs2 & Hn2).
  apply (StronglySorted_unique_strong item_le); [|done| |].
  - intros x y Hx Hy Hxy Hyx.
    apply (item_key_unique (sorted_items (<[k := v]> attrs))); [done..| |].
    + rewrite Hp1. rewrite map_to_list_insert by done.
      rewrite <- Hp2, (Permutation_cons_append _ (k, v)). done.
    + unfold item_le in *. by apply (anti_symm String.le).
  - apply StronglySorted_app_2; [|done|repeat constructor].
    intros x y Hx ->%list_elem_of_singleton. unfold item_le. simpl.
    apply sorted_items_elem in Hx. eauto.
  - rewrite Hp1, map_to_list_insert by done.
    by rewrite <- Hp2, Permutation_cons_append.
Qed.

(** X4. Adding an entry whose key is new and not below any key of the
    dictionary appends its fragment to the text. *)
Theorem flatatt_insert_last (attrs : dict) (k : string) (v : pyval) :
  attrs !! k = None →
  (∀ (k' : string) (v' : pyval), attrs !! k' = Some v' → String.le k' k) →
  py_str (flatatt (<[k := v]> attrs)) =
    py_str (flatatt attrs) +:+ " " +:+ escaped (PStr k) +:+ "=" +:+ dq
      +:+ escaped v +:+ dq.
Proof.
  intros Hnew Hmax. rewrite !flatatt_fragments. simpl.
  rewrite (sorted_items_insert_last _ _ _ Hnew Hmax), fmap_app, concat_str_app.
  simpl. by rewrite app_empty_r.
Qed.

(** X4 at a class attribute followed by a size. *)
Lemma flatatt_insert_last_witness :
  py_str (flatatt (<["size" := PInt 10]> {["class" := PStr "a"]})) =
    py_str (flatatt {["class" := PStr "a"]}) +:+ " " +:+ escaped (PStr "size")
      +:+ "=" +:+ dq +:+ escaped (PInt 10) +:+ dq.
Proof.
  apply (flatatt_insert_last {["class" := PStr "a"]} "size" (PInt 10)).
  - reflexivity.
  - intros k' v' [<- _]%lookup_singleton_Some. by vm_compute.
Defined.

(** ** Ids of the inputs of one group *)

Lemma indexed_id_inj (idv : pyval) (i j : Z) :
  indexed_id idv i = indexed_id idv j → i = j.
Proof.
  unfold indexed_id. intros Heq.
  apply (inj (String.app (py_str idv))) in Heq.
  apply (inj (String.app "_")) in Heq.
  by apply (inj pretty) in Heq.
Qed.

Section checkbox_ids.
Context `{Framework}.

End checkbox_ids.


(** X6. [tag] writes into the attrs of a radio input the id it found
    followed by an underscore and the input's index; two inputs built on
    copies of the same attrs with different indices end with different
    ids; attrs with no id are left as they are. *)
Theorem radio_ids_distinct (w1 w2 : ChoiceInput) (h1 h2 : heap) (d : dict) :
  h1 !! ci_attrs w1 = Some d →
  h2 !! ci_attrs w2 = Some d →
  (∀ idv : pyval,
     d !! "id" = Some idv →
     (tag w1 h1).2 !! ci_attrs w1 =
       Some (<["id" := PStr (py_str idv +:+ "_" +:+ pretty (ci_index w1))]> d) ∧
     (ci_index w1 ≠ ci_index w2 →
      (tag w1 h1).2 !! ci_attrs w1 ≠ (tag w2 h2).2 !! ci_attrs w2)) ∧
  (d !! "id" = None → (tag w1 h1).2 = h1).
Proof.
  intros H1 H2. rewrite !tag_run, H1, H2. cbn [snd]. rewrite !lookup_insert_eq.
  unfold tag_attrs. split.
  - intros idv Hid. rewrite Hid. split; [done|].
    intros Hne [= Heq].
    assert (<["id" := PStr (indexed_id idv (ci_index w1))]> d !! "id" =
            <["id" := PStr (indexed_id idv (ci_index w2))]> d !! "id") as Hl
      by (by rewrite Heq).
    rewrite !lookup_insert_eq in Hl. injection Hl as Hl.
    by apply indexed_id_inj in Hl.
  - intros Hid. rewrite Hid. by apply insert_id.
Qed.

(** X6 at two inputs of the sample group. *)
Lemma radio_ids_distinct_witness :
  (tag (RadioChoiceInput_init AdminRadioInput (PStr "color") (PStr "g") 1%positive
          (PStr "r", PStr "R") 0) (sample_heap id_attrs)).2 !! 1%positive ≠
  (tag (RadioChoiceInput_init AdminRadioInput (PStr "color") (PStr "g") 1%positive
          (PStr "g", PStr "G") 1) (sample_heap id_attrs)).2 !! 1%positive.
Proof.
  apply (proj1 (radio_ids_distinct
                  (RadioChoiceInput_init AdminRadioInput (PStr "color") (PStr "g")
                     1%positive (PStr "r", PStr "R") 0)
                  (RadioChoiceInput_init AdminRadioInput (PStr "color") (PStr "g")
                     1%positive (PStr "g", PStr "G") 1)
                  (sample_heap id_attrs) (sample_heap id_attrs) id_attrs
                  eq_refl eq_refl) (PStr "id_color") eq_refl).
  done.
Defined.

(** ** What the input tag is made of *)

Lemma py_eq_force_text (a b : pyval) :
  py_eq (force_text a) (force_text b) = bool_decide (py_str a = py_str b).
Proof. destruct a as [| [] | | |], b as [| [] | | |]; reflexivity. Qed.

(** X7. A radio input is checked exactly when the text of the value
    equals the text of the choice's value: the comparison is made on the
    texts, so the number 1 selects the choice written as the digit 1, and
    the value [None] selects a choice whose value reads None. *)
Theorem is_checked_compares_texts (c : input_class) (name value : pyval)
    (attrs : loc) (choice : pyval * pyval) (index : Z) :
  is_checked (RadioChoiceInput_init c name value attrs choice index) = true ↔
  py_str value = py_str choice.1.
Proof.
  unfold is_checked. simpl. rewrite py_eq_force_text. apply bool_decide_eq_true.
Qed.

(** X8. The tag of an input is the input element over attributes in
    which type is radio and name and value are the input's own, whatever
    the attrs hold under these keys; checked is set when the input is
    checked and is otherwise whatever the attrs hold; every other key but
    the id is the attrs' own. *)
Theorem tag_fixed_attributes (self : ChoiceInput) (h : heap) (d : dict) :
  h !! ci_attrs self = Some d →
  ∃ final_attrs : dict,
    (tag self h).1 = Some (format_html input_format [flatatt final_attrs]) ∧
    final_attrs !! "type" = Some (PStr "radio") ∧
    final_attrs !! "name" = Some (ci_name self) ∧
    final_attrs !! "value" = Some (choice_value self) ∧
    final_attrs !! "checked" =
      (if is_checked self then Some (PStr "checked") else d !! "checked") ∧
    ∀ k : string,
      k ∉ ["type"; "name"; "value"; "checked"; "id"] →
      final_attrs !! k = d !! k.
Proof.
  intros Hd. rewrite tag_run, Hd. unfold tag_html.
  assert (tag_attrs self d !! "checked" = d !! "checked") as Hchk.
  { unfold tag_attrs. destruct (d !! "id"); [|done]. by rewrite lookup_insert_ne. }
  assert (∀ k, k ≠ "id" → tag_attrs self d !! k = d !! k) as Hother.
  { intros k Hk. unfold tag_attrs. destruct (d !! "id"); [|done].
    by rewrite lookup_insert_ne. }
  eexists. split; [reflexivity|].
  destruct (is_checked self); split_and!;
    try (by simplify_map_eq);
    try (rewrite !lookup_insert_ne by done; done);
    intros k Hk; rewrite !not_elem_of_cons in Hk;
    destruct Hk as (? & ? & ? & ? & ? & _);
    rewrite !lookup_insert_ne by done; by apply Hother.
Qed.

(** X8 at an input whose attrs try to set the type. *)
Lemma tag_fixed_attributes_witness :
  ∃ final_attrs : dict,
    (tag (sample_input_obj RadioChoiceInput)
       (sample_heap {["type" := PStr "checkbox"]})).1 =
      Some (format_html input_format [flatatt final_attrs]) ∧
    final_attrs !! "type" = Some (PStr "radio").
Proof.
  destruct (tag_fixed_attributes (sample_input_obj RadioChoiceInput)
              (sample_heap {["type" := PStr "checkbox"]})
              {["type" := PStr "checkbox"]} eq_refl)
    as (fa & Htag & Htype & _).
  exists fa. by split.
Defined.

(** ** Constructors and format_output *)

(** X9. The dictionary a constructor hands to its base class has exactly
    the caller's keys together with the keys of the defaults, and
    constructing again from that dictionary hands over the same
    dictionary. *)
Theorem admin_init_idempotent `{Framework} (c : admin_widget) (attrs : option dict)
    (format : option pyval) :
  let final : dict :=
    from_option (λ a : dict, a ∪ admin_defaults c) (admin_defaults c) attrs in
  admin_init c attrs format = base_init c (Some final) format ∧
  admin_init c (Some final) format = base_init c (Some final) format ∧
  dom final = dom (default ∅ attrs) ∪ dom (admin_defaults c).
Proof.
  intros final.
  assert (final_attrs_of (admin_defaults c) attrs = final) as Hfinal
    by apply final_attrs_of_union.
  rewrite !admin_init_base, Hfinal. split_and!; [done| |].
  - f_equal. f_equal. apply map_eq. intros k.
    rewrite final_attrs_of_lookup. simpl.
    destruct (final !! k) eqn:Hk; [done|].
    rewrite <- Hfinal, final_attrs_of_lookup in Hk.
    by destruct (attrs ≫= (.!! k)).
  - unfold final. destruct attrs as [a|]; simpl.
    + by rewrite dom_union_L.
    + rewrite dom_empty_L. by rewrite (left_id_L ∅ (∪)).
Qed.

(** X10. [format_output] returns exactly when it is handed at least two
    rendered widgets; with fewer the index is out of range. *)
Theorem format_output_needs_two (rendered_widgets : list pyval) :
  is_Some (format_output rendered_widgets) ↔ (2 ≤ length rendered_widgets)%nat.
Proof.
  destruct rendered_widgets as [|a [|b rest]]; simpl.
  - split; [by intros [? ?]|lia].
  - split; [by intros [? ?]|lia].
  - split; [lia|by eauto].
Qed.

(** ** Rendering again *)

Lemma bind_ret_fst {A B} (m : M A) (g : A → B) (h : heap) :
  ((do x <- m; ret (g x)) h).1 = g <$> (m h).1.
Proof. unfold bind. by destruct (m h) as [[x|] h']. Qed.

Lemma iter_from_no_class {A} (self : Renderer) (d : dict)
    (choices : list (pyval * pyval)) (body : ChoiceInput → M A) (i : nat) (h : heap) :
  r_class self = ChoiceFieldRenderer →
  h !! r_attrs self = Some d →
  (iter_from self i choices body h).1 =
    match choices with [] => Some [] | _ => None end.
Proof.
  intros Hc Hd. destruct choices as [|c cs]; [done|].
  cbn [iter_from]. unfold bind at 1. by rewrite new_input_run, Hd, Hc.
Qed.

Lemma Renderer_render_by_attrs (self : Renderer) (h1 h2 : heap) (d : dict) :
  h1 !! r_attrs self = Some d →
  h2 !! r_attrs self = Some d →
  (Renderer_render self h1).1 = (Renderer_render self h2).1.
Proof.
  intros H1 H2. unfold Renderer_render.
  destruct (r_class self) eqn:Hc.
  - unfold ChoiceFieldRenderer_render, Renderer_iter.
    rewrite !(bind_Some _ _ _ _ _ (load_Some _ _ _ H1)).
    rewrite !(bind_Some _ _ _ _ _ (load_Some _ _ _ H2)).
    rewrite !bind_ret_fst.
    by rewrite (iter_from_no_class self d _ _ _ h1 Hc H1),
               (iter_from_no_class self d _ _ _ h2 Hc H2).
  - unfold ChoiceFieldRenderer_render, Renderer_iter.
    rewrite !(bind_Some _ _ _ _ _ (load_Some _ _ _ H1)).
    rewrite !(bind_Some _ _ _ _ _ (load_Some _ _ _ H2)).
    rewrite !bind_ret_fst.
    by rewrite (iter_from_radio self d _ Hc 0 h1 H1),
               (iter_from_radio self d _ Hc 0 h2 H2).
  - unfold AdminRadioFieldRenderer_render, Renderer_iter.
    rewrite !bind_ret_fst.
    by rewrite (iter_from_admin self d _ Hc 0 h1 H1),
               (iter_from_admin self d _ Hc 0 h2 H2).
Qed.

(** X11. What a renderer returns depends on the store through the
    contents of its attrs only; so rendering it a second time, in the
    store the first rendering left, returns the same as the first. *)
Theorem renderer_render_repeatable (self : Renderer) (h : heap) (d : dict) :
  h !! r_attrs self = Some d →
  (∀ h2 : heap,
     h2 !! r_attrs self = Some d →
     (Renderer_render self h2).1 = (Renderer_render self h).1) ∧
  (Renderer_render self (Renderer_render self h).2).1 = (Renderer_render self h).1.
Proof.
  intros Hd. split.
  - intros h2 H2. by apply (Renderer_render_by_attrs self h2 h d).
  - apply (Renderer_render_by_attrs self _ h d); [|done].
    rewrite Renderer_render_frame by (by rewrite Hd). done.
Qed.

(** X11 at the sample renderer. *)
Lemma renderer_render_repeatable_witness :
  (Renderer_render (sample_renderer AdminRadioFieldRenderer)
     (Renderer_render (sample_renderer AdminRadioFieldRenderer)
        (sample_heap id_attrs)).2).1 =
    (Renderer_render (sample_renderer AdminRadioFieldRenderer) (sample_heap id_attrs)).1.
Proof.
  apply (proj2 (renderer_render_repeatable (sample_renderer AdminRadioFieldRenderer)
                  (sample_heap id_attrs) id_attrs eq_refl)).
Defined.

Lemma tag_attrs_other (self : ChoiceInput) (d : dict) (k : string) :
  k ≠ "id" → tag_attrs self d !! k = d !! k.
Proof.
  intros Hk. unfold tag_attrs. destruct (d !! "id"); [|done].
  by rewrite lookup_insert_ne.
Qed.

Lemma tag_attrs_id (self : ChoiceInput) (d : dict) :
  tag_attrs self d !! "id" =
    (λ idv, PStr (indexed_id idv (ci_index self))) <$> d !! "id".
Proof.
  unfold tag_attrs. destruct (d !! "id") as [idv|] eqn:Hid; simpl; [|done].
  by rewrite lookup_insert_eq.
Qed.

(** What [str] leaves in the attrs of an input, for both classes. *)
Lemma ChoiceInput_str_store (w : ChoiceInput) (h : heap) (d : dict) :
  h !! ci_attrs w = Some d →
  (ci_class w = AdminRadioInput → is_Some (cleaned_class d)) →
  ∃ d' : dict,
    (ChoiceInput_str w h).2 !! ci_attrs w = Some d' ∧
    is_Some (ChoiceInput_str w h).1 ∧
    d' !! "id" = (λ idv, PStr (indexed_id idv (ci_index w))) <$> d !! "id" ∧
    (ci_class w = RadioChoiceInput → d !! "id" = None → (ChoiceInput_str w h).2 = h) ∧
    (ci_class w = AdminRadioInput → is_Some (cleaned_class d')).
Proof.
  intros Hd Hcls. destruct (ci_class w) eqn:Hc.
  - rewrite ChoiceInput_str_radio by done. rewrite ChoiceInput_render_run, Hd.
    exists (tag_attrs w d). cbn [fst snd].
    split_and!; [apply lookup_insert_eq|by eauto|apply tag_attrs_id| |done].
    intros _ Hid. unfold tag_attrs. rewrite Hid. by apply insert_id.
  - destruct (Hcls eq_refl) as [cls Hcl].
    rewrite AdminRadioInput_str_run, Hd, Hcl by done.
    exists (tag_attrs w (<["class" := cls]> d)). cbn [fst snd].
    split_and!; [apply lookup_insert_eq|by eauto| |done|].
    + rewrite tag_attrs_id. by rewrite lookup_insert_ne.
    + intros _. unfold cleaned_class, dict_get.
      rewrite tag_attrs_other, lookup_insert_eq by done. simpl.
      unfold cleaned_class, str_replace in Hcl.
      destruct (as_text _); simplify_eq/=. by eauto.
Qed.

(** X12. Rendering the same input again is not the same as rendering a
    new one: every [str] of an input whose attrs carry an id appends the
    index to the id once more, so the second rendering is written from an
    id that carries the index twice.  A plain [RadioChoiceInput] whose
    attrs carry no id leaves the store as it found it. *)
Theorem choice_input_str_again (w : ChoiceInput) (h : heap) (d : dict) :
  h !! ci_attrs w = Some d →
  (ci_class w = AdminRadioInput → is_Some (cleaned_class d)) →
  let h1 := (ChoiceInput_str w h).2 in
  let h2 := (ChoiceInput_str w h1).2 in
  is_Some (ChoiceInput_str w h).1 ∧
  is_Some (ChoiceInput_str w h1).1 ∧
  (∀ idv : pyval,
     d !! "id" = Some idv →
     (h1 !! ci_attrs w) ≫= (.!! "id") =
       Some (PStr (py_str idv +:+ "_" +:+ pretty (ci_index w))) ∧
     (h2 !! ci_attrs w) ≫= (.!! "id") =
       Some (PStr ((py_str idv +:+ "_" +:+ pretty (ci_index w))
                     +:+ "_" +:+ pretty (ci_index w)))) ∧
  (ci_class w = RadioChoiceInput → d !! "id" = None →
   h1 = h ∧ (ChoiceInput_str w h1).1 = (ChoiceInput_str w h).1).
Proof.
  intros Hd Hcls h1 h2.
  destruct (ChoiceInput_str_store w h d Hd Hcls) as (d1 & H1 & Hr1 & Hid1 & Hpure & Hcls1).
  fold h1 in H1.
  destruct (ChoiceInput_str_store w h1 d1 H1 Hcls1) as (d2 & H2 & Hr2 & Hid2 & _ & _).
  fold h2 in H2. split_and!; [done..| |].
  - intros idv Hid. rewrite H1, H2. simpl.
    rewrite Hid2, Hid1, Hid. done.
  - intros Hc Hno. assert (h1 = h) as Heq by (by apply Hpure).
    split; [done|]. by rewrite Heq.
Qed.

(** X12 at the sample radio input with the id id_color. *)
Lemma choice_input_str_again_witness :
  let w := sample_input_obj AdminRadioInput in
  let h1 := (ChoiceInput_str w (sample_heap id_attrs)).2 in
  let h2 := (ChoiceInput_str w h1).2 in
  (h2 !! ci_attrs w) ≫= (.!! "id") = Some (PStr "id_color_0_0").
Proof.
  intros w h1 h2.
  destruct (choice_input_str_again w (sample_heap id_attrs) id_attrs eq_refl)
    as (_ & _ & Hid & _); [by eexists|].
  apply (proj2 (Hid (PStr "id_color") eq_refl)).
Defined.

(** ** Items by index *)

(** X13. An index outside the choices raises and leaves the store as it
    was.  An index from 0 up builds the input iteration builds for that
    position; a negative index counts from the end for the choice but is
    handed on as it is, so the input is numbered with the negative
    index. *)
Theorem renderer_getitem_bounds (self : Renderer) (idx : Z) (h : heap) :
  let n := Z.of_nat (length (r_choices self)) in
  (idx < - n ∨ n ≤ idx → Renderer_getitem self idx h = (None, h)) ∧
  (∀ choice : pyval * pyval,
     0 ≤ idx →
     r_choices self !! Z.to_nat idx = Some choice →
     Renderer_getitem self idx h = new_input self choice idx h) ∧
  (∀ choice : pyval * pyval,
     - n ≤ idx < 0 →
     r_choices self !! Z.to_nat (n + idx) = Some choice →
     Renderer_getitem self idx h = new_input self choice idx h ∧
     ∀ (w : ChoiceInput) (h' : heap),
       Renderer_getitem self idx h = (Some w, h') →
       ci_index w = idx ∧ choice_value w = force_text choice.1).
Proof.
  intros n. unfold Renderer_getitem, py_index. fold n. split_and!.
  - intros Hout. apply bind_None. unfold lift.
    destruct (decide (0 ≤ idx)).
    + rewrite lookup_ge_None_2 by (unfold n in *; lia). done.
    + destruct (decide (- n ≤ idx)); [lia|done].
  - intros choice Hpos Hc. erewrite bind_Some; [reflexivity|]. unfold lift.
    destruct (decide (0 ≤ idx)); [|lia]. by rewrite Hc.
  - intros choice Hneg Hc.
    assert (bind (lift (if decide (0 ≤ idx) then r_choices self !! Z.to_nat idx
                        else if decide (- n ≤ idx)
                             then r_choices self !! Z.to_nat (n + idx) else None))
              (λ choice, new_input self choice idx) h = new_input self choice idx h)
      as Heq.
    { erewrite bind_Some; [reflexivity|].
      unfold lift. destruct (decide (0 ≤ idx)); [lia|].
      destruct (decide (- n ≤ idx)); [|lia]. by rewrite Hc. }
    split; [done|]. intros w h'. rewrite Heq, new_input_run.
    destruct (h !! r_attrs self); [|done]. cbn zeta.
    destruct (input_class_of (r_class self)); [|done].
    simpl. by intros [= <- _].
Qed.

(** X13 at the last choice of the sample renderer, taken by index -1. *)
Lemma renderer_getitem_bounds_witness :
  Renderer_getitem (sample_renderer AdminRadioFieldRenderer) (-1) (sample_heap id_attrs) =
    new_input (sample_renderer AdminRadioFieldRenderer) (PStr "g", PSafe "<b>G</b>")
      (-1) (sample_heap id_attrs).
Proof.
  apply (proj1 (proj2 (proj2 (renderer_getitem_bounds
                                (sample_renderer AdminRadioFieldRenderer) (-1)
                                (sample_heap id_attrs)))
                  (PStr "g", PSafe "<b>G</b>") ltac:(simpl; lia) eq_refl)).
Defined.

(** ** The attrs argument of AdminRadioInput.render *)

Lemma or_attrs_Some (la l : loc) (h : heap) (da : dict) :
  h !! la = Some da →
  or_attrs (Some la) l h = (Some (if decide (da = ∅) then l else la), h).
Proof.
  intros Hla. unfold or_attrs.
  by rewrite (bind_Some _ _ _ _ _ (load_Some _ _ _ Hla)).
Qed.

(** X14. An empty dictionary handed to [render] as attrs counts as none
    given.  A non-empty one, distinct from the input's own attrs, is the
    dictionary whose class is cleaned, in place, and whose inline entry
    picks the layout; the input's own attrs, from which the label
    reference and the tag are written, keep their class as it was. *)
Theorem admin_radio_render_attrs_argument (self : ChoiceInput) (la : loc)
    (h : heap) (da ds : dict) :
  la ≠ ci_attrs self →
  h !! la = Some da →
  h !! ci_attrs self = Some ds →
  (da = ∅ →
   AdminRadioInput_render self (Some la) h = AdminRadioInput_render self None h) ∧
  (da ≠ ∅ →
   ∀ cls : pyval,
     cleaned_class da = Some cls →
     (AdminRadioInput_render self (Some la) h).1 = Some (radio_markup self da ds) ∧
     (AdminRadioInput_render self (Some la) h).2 !! la = Some (<["class" := cls]> da) ∧
     ((AdminRadioInput_render self (Some la) h).2 !! ci_attrs self) ≫= (.!! "class")
       = ds !! "class").
Proof.
  intros Hne Hla Hds. split.
  - intros Hempty. unfold AdminRadioInput_render.
    rewrite (bind_Some _ _ _ _ _ (or_attrs_Some la (ci_attrs self) h da Hla)).
    rewrite decide_True by done.
    by erewrite (bind_Some (or_attrs None _)) by reflexivity.
  - intros Hfull cls Hcls.
    pose proof (or_attrs_Some la (ci_attrs self) h da Hla) as Hor.
    rewrite decide_False in Hor by done.
    rewrite (AdminRadioInput_render_run self (Some la) h la da ds cls Hor Hla Hcls)
      by (by rewrite lookup_insert_ne).
    cbn [fst snd]. split_and!; [done| |].
    + rewrite lookup_insert_ne by done. apply lookup_insert_eq.
    + rewrite lookup_insert_eq. simpl. by apply tag_attrs_other.
Qed.

(** X14 at own attrs with class form-control and passed attrs that ask
    for the inline layout. *)
Lemma admin_radio_render_attrs_argument_witness :
  let own : dict := {["class" := PStr "form-control"]} in
  let h := two_dicts_heap own inline_attrs in
  (AdminRadioInput_render (sample_input_obj AdminRadioInput) (Some 2%positive) h).2
    !! 2%positive = Some (<["class" := PStr EmptyString]> inline_attrs) ∧
  ((AdminRadioInput_render (sample_input_obj AdminRadioInput) (Some 2%positive) h).2
     !! 1%positive) ≫= (.!! "class") = Some (PStr "form-control").
Proof.
  intros own h.
  destruct (proj2 (admin_radio_render_attrs_argument (sample_input_obj AdminRadioInput)
                     2%positive h inline_attrs own ltac:(done) eq_refl eq_refl)
              ltac:(done) (PStr EmptyString) eq_refl) as (_ & Hpassed & Hown).
  split; [exact Hpassed | exact Hown].
Defined.

(** ** The renderer without an input class *)

(** X15. A renderer of the base class, whose [choice_input_class] is
    [None], renders the two ul tags alone when it has no choices and
    raises as soon as it has one; the opening tag carries the id of the
    attrs, escaped, when that id is truthy. *)
Theorem base_renderer_needs_input_class (self : Renderer) (h : heap) (d : dict) :
  r_class self = ChoiceFieldRenderer →
  h !! r_attrs self = Some d →
  (r_choices self = [] →
   (Renderer_render self h).1 =
     Some (mark_safe
             ((if truthy (dict_get d "id" PNone)
               then "<ul id=" +:+ dq +:+ escaped (dict_get d "id" PNone) +:+ dq +:+ ">"
               else "<ul>") +:+ nl +:+ "</ul>"))) ∧
  (r_choices self ≠ [] → (Renderer_render self h).1 = None).
Proof.
  intros Hc Hd. unfold Renderer_render. rewrite Hc.
  unfold ChoiceFieldRenderer_render, Renderer_iter.
  rewrite (bind_Some _ _ _ _ _ (load_Some _ _ _ Hd)), bind_ret_fst.
  rewrite (iter_from_no_class self d _ _ _ h Hc Hd). split.
  - intros ->. simpl. by destruct (truthy (dict_get d "id" PNone)).
  - intros Hne. by destruct (r_choices self).
Qed.

(** X15 at the sample choices. *)
Lemma base_renderer_needs_input_class_witness :
  (Renderer_render (sample_renderer ChoiceFieldRenderer) (sample_heap id_attrs)).1 = None.
Proof.
  apply (proj2 (base_renderer_needs_input_class (sample_renderer ChoiceFieldRenderer)
                  (sample_heap id_attrs) id_attrs eq_refl eq_refl)).
  done.
Defined.

(** ** Cleaning the class *)

Lemma replace_absent (old new s : string) :
  contains old s = false → replace old new s = s.
Proof.
  unfold replace. induction s as [|c s IH]; [done|].
  cbn [contains replace_from]. intros [Hp Hs]%orb_false_iff.
  rewrite Hp. f_equal. by apply IH.
Qed.

(** X16. After an [AdminRadioInput] was rendered its attrs always hold a
    class that is a plain string: the empty string when there was none,
    the text as it was when form-control does not occur in it.  A class
    that is not a string raises, and the store is left as it was. *)
Theorem admin_radio_class_cleaning (w : ChoiceInput) (h : heap) (d : dict) :
  ci_class w = AdminRadioInput →
  h !! ci_attrs w = Some d →
  (d !! "class" = None →
   ((ChoiceInput_str w h).2 !! ci_attrs w) ≫= (.!! "class") = Some (PStr EmptyString)) ∧
  (∀ (v : pyval) (text : string),
     d !! "class" = Some v → as_text v = Some text →
     (∃ text' : string,
        ((ChoiceInput_str w h).2 !! ci_attrs w) ≫= (.!! "class") = Some (PStr text')) ∧
     (contains "form-control" text = false →
      ((ChoiceInput_str w h).2 !! ci_attrs w) ≫= (.!! "class") = Some (PStr text))) ∧
  (∀ v : pyval,
     d !! "class" = Some v → as_text v = None →
     ChoiceInput_str w h = (None, h)).
Proof.
  intros Hc Hd. rewrite AdminRadioInput_str_run, Hd by done.
  unfold cleaned_class, dict_get, str_replace. split_and!.
  - intros ->. simpl. rewrite lookup_insert_eq. simpl.
    rewrite tag_attrs_other by done. by rewrite lookup_insert_eq.
  - intros v text -> Htext. simpl. rewrite Htext. simpl.
    rewrite lookup_insert_eq. simpl. rewrite tag_attrs_other by done.
    rewrite lookup_insert_eq. split; [by eauto|].
    intros Habs. by rewrite (replace_absent _ _ _ Habs).
  - intros v -> Hv. simpl. by rewrite Hv.
Qed.

(** X16 at a class that does not mention form-control. *)
Lemma admin_radio_class_cleaning_witness :
  ((ChoiceInput_str (sample_input_obj AdminRadioInput)
      (sample_heap {["class" := PSafe "radio big"]})).2 !! 1%positive)
    ≫= (.!! "class") = Some (PStr "radio big").
Proof.
  destruct (admin_radio_class_cleaning (sample_input_obj AdminRadioInput)
              (sample_heap {["class" := PSafe "radio big"]})
              {["class" := PSafe "radio big"]} eq_refl eq_refl)
    as (_ & Hkeep & _).
  apply (proj2 (Hkeep (PSafe "radio big") "radio big" eq_refl eq_refl)).
  reflexivity.
Defined.

(** ** Labels and the ids they refer to *)



(** X18. [ChoiceInput.render], which [RadioChoiceInput] keeps, escapes
    what it writes around the tag: the label text, and in the label
    reference both the id and the index. *)
Theorem choice_input_render_escapes (w : ChoiceInput) (h : heap) (d : dict) :
  h !! ci_attrs w = Some d →
  ∃ t : string,
    (ChoiceInput_render w None h).1 =
      Some (mark_safe
              ("<label"
                 +:+ match d !! "id" with
                     | Some idv =>
                         " for=" +:+ dq +:+ py_str (conditional_escape idv) +:+ "_"
                           +:+ py_str (conditional_escape (PInt (ci_index w))) +:+ dq
                     | None => EmptyString
                     end
                 +:+ ">" +:+ t +:+ " "
                 +:+ py_str (conditional_escape (choice_label w)) +:+ "</label>")) ∧
    (tag w h).1 = Some (mark_safe t).
Proof.
  intros Hd. rewrite ChoiceInput_render_run, tag_run, Hd. cbn [fst].
  exists (py_str (tag_html w d)). split; [|done].
  unfold base_markup. by destruct (d !! "id").
Qed.

(** X18 at the sample input: the ampersand of the label is written as its
    entity. *)
Lemma choice_input_render_escapes_witness :
  ∃ t : string,
    (ChoiceInput_render (sample_input_obj RadioChoiceInput) None
       (sample_heap ∅)).1 =
      Some (mark_safe ("<label" +:+ EmptyString +:+ ">" +:+ t +:+ " "
                         +:+ "R&amp;B" +:+ "</label>")).
Proof.
  destruct (choice_input_render_escapes (sample_input_obj RadioChoiceInput)
              (sample_heap ∅) ∅ eq_refl) as (t & Hout & _).
  exists t. exact Hout.
Defined.

(** ** Selected values of a checkbox select *)

Section checkbox_values.
Context `{Framework}.

(** X19. The selected values of an [AdminCheckboxSelect] count through
    the set of their texts only: two lists of values with the same texts,
    in any order and with any repetition, give the same output. *)
Theorem checkbox_select_value_texts (self : Widget) (name : pyval)
    (value1 value2 : list pyval) (attrs : option dict)
    (choices : list (pyval * pyval)) :
  (∀ s : string,
     s ∈ (py_str ∘ force_unicode <$> value1) ↔
     s ∈ (py_str ∘ force_unicode <$> value2)) →
  AdminCheckboxSelect_render self name (Some value1) attrs choices =
    AdminCheckboxSelect_render self name (Some value2) attrs choices.
Proof.
  intros Hsame.
  assert (str_values_of value1 = str_values_of value2) as Heq.
  { apply leibniz_equiv, set_equiv. intros s. unfold str_values_of.
    rewrite !elem_of_list_to_set. apply Hsame. }
  unfold AdminCheckboxSelect_render. simpl. by rewrite Heq.
Qed.

End checkbox_values.

(** X19 at the number 1 given twice and the digit 1 given once. *)
Lemma checkbox_select_value_texts_witness :
  @AdminCheckboxSelect_render sample_framework (Widget_init None None) (PStr "tags")
    (Some [PInt 1; PInt 1]) (Some id_attrs) [(PInt 1, PStr "one")] =
  @AdminCheckboxSelect_render sample_framework (Widget_init None None) (PStr "tags")
    (Some [PStr "1"]) (Some id_attrs) [(PInt 1, PStr "one")].
Proof.
  apply (@checkbox_select_value_texts sample_framework (Widget_init None None)
           (PStr "tags") [PInt 1; PInt 1] [PStr "1"]).
  intros s. change (py_str ∘ force_unicode <$> [PInt 1; PInt 1]) with ["1"; "1"].
  change (py_str ∘ force_unicode <$> [PStr "1"]) with ["1"].
  rewrite !elem_of_cons, !elem_of_nil. tauto.
Defined.
